(** * haplogroup_visualization.py: a shallow embedding

    The script cleans the AADR annotation table, splits it into a Y and an
    mtDNA table, bins the samples by age, clusters the sample coordinates and
    builds one map marker per cluster.  This development embeds the parts of
    the script that carry its logic and proves properties of them.

    Conventions of the embedding:
    - a Python [str] is a [string]; a character is a code point below 256;
    - the [Mean BP] column is an integer column, a value is a [Z];
    - a DataFrame is the list of its rows in order; a row keeps its index
      label in the field [idx], which filters never change;
    - an exception that the script does not catch ends the run: code that can
      raise returns a [result];
    - [sklearn.cluster.KMeans] is a library called by the script; it is a
      parameter of the section that uses it. *)

From Stdlib Require Import String Ascii List ZArith Lia Bool Arith.
From Stdlib Require Import DecimalString QArith Qround Qabs Lqa.
From Stdlib Require Import Permutation Sorted.
Import ListNotations.

Local Open Scope string_scope.
Local Open Scope list_scope.
Local Open Scope nat_scope.

(** ** Python strings *)

Module PyStr.

(** [str.isspace] on one character, which is also what [\s] matches in a
    [str] pattern: TAB..CR, FS..US, SPACE, NEL and NBSP below 256. *)
Definition is_space (c : ascii) : bool :=
  let n := nat_of_ascii c in
  ((9 <=? n) && (n <=? 13)) || ((28 <=? n) && (n <=? 32))
  || (n =? 133) || (n =? 160).

Definition newline : ascii := ascii_of_nat 10.

(** [pat in s] for a literal [pat]. *)
Fixpoint contains (pat s : string) : bool :=
  prefix pat s ||
  match s with
  | EmptyString => false
  | String _ t => contains pat t
  end.

Fixpoint lstrip (s : string) : string :=
  match s with
  | EmptyString => EmptyString
  | String c t => if is_space c then lstrip t else s
  end.

Fixpoint rstrip (s : string) : string :=
  match s with
  | EmptyString => EmptyString
  | String c t =>
      match rstrip t with
      | EmptyString => if is_space c then EmptyString else String c EmptyString
      | t' => String c t'
      end
  end.

(** [s.strip()] *)
Definition strip (s : string) : string := rstrip (lstrip s).

(** [s.split(sep)] for a one-character separator: the pieces between the
    separators, always at least one piece. *)
Fixpoint split (sep : ascii) (s : string) : list string :=
  match s with
  | EmptyString => [EmptyString]
  | String c t =>
      if Ascii.eqb c sep then EmptyString :: split sep t
      else match split sep t with
           | [] => [String c EmptyString]
           | p :: ps => String c p :: ps
           end
  end.

(** [sep.join(l)] *)
Fixpoint join (sep : string) (l : list string) : string :=
  match l with
  | [] => EmptyString
  | [x] => x
  | x :: rest => (x ++ sep ++ join sep rest)%string
  end.

(** [str(n)] for an [int]. *)
Definition str_of_int (n : Z) : string := NilZero.string_of_int (Z.to_int n).

(** [str(n)] for a non-negative machine count. *)
Definition str_of_nat (n : nat) : string := str_of_int (Z.of_nat n).

Definition is_digit (c : ascii) : bool :=
  let n := nat_of_ascii c in (48 <=? n) && (n <=? 57).

Definition digit_val (c : ascii) : Z := Z.of_nat (nat_of_ascii c - 48).

(** The digits of an integer literal: one or more digits, single
    underscores allowed between two digits.  [after_digit] tells whether the
    character before was a digit; [acc] is the value read so far and [n] the
    number of digits read. *)
Fixpoint int_digits (s : string) (after_digit : bool) (acc : Z) (n : nat)
  : option (Z * nat) :=
  match s with
  | EmptyString => if after_digit then Some (acc, n) else None
  | String c t =>
      if is_digit c then int_digits t true (10 * acc + digit_val c)%Z (S n)
      else if Ascii.eqb c "_" && after_digit then int_digits t false acc n
      else None
  end.

(** [sys.int_max_str_digits]: a longer literal raises [ValueError]. *)
Definition int_max_str_digits : nat := 4300.

(** [int(s)]: surrounding white space is dropped, then an optional sign and
    the digits; [None] stands for [ValueError]. *)
Definition int (s : string) : option Z :=
  let body := strip s in
  let '(neg, ds) :=
    match body with
    | String c t =>
        if Ascii.eqb c "-" then (true, t)
        else if Ascii.eqb c "+" then (false, t)
        else (false, body)
    | EmptyString => (false, body)
    end in
  match int_digits ds false 0%Z 0 with
  | Some (v, n) =>
      if int_max_str_digits <? n then None
      else Some (if neg then (- v)%Z else v)
  | None => None
  end.

End PyStr.

(** ** Exceptions *)

Inductive exn : Type :=
| IndexError
| AttributeError
| ValueError
| TypeError.

Inductive result (A : Type) : Type :=
| Ok (a : A)
| Raise (e : exn).

Arguments Ok {A} a.
Arguments Raise {A} e.

Definition bind {A B : Type} (m : result A) (f : A -> result B) : result B :=
  match m with
  | Ok a => f a
  | Raise e => Raise e
  end.

Notation "x <- m ;; k" := (bind m (fun x => k))
  (at level 61, m at next level, right associativity).

(** [l[i]] for a list. *)
Definition index {A : Type} (l : list A) (i : nat) : result A :=
  match nth_error l i with
  | Some a => Ok a
  | None => Raise IndexError
  end.

(** [f] applied to each element in order; the first exception ends it. *)
Fixpoint mapM {A B : Type} (f : A -> result B) (l : list A) : result (list B) :=
  match l with
  | [] => Ok []
  | a :: rest => b <- f a ;; bs <- mapM f rest ;; Ok (b :: bs)
  end.

(** ** Lineage code cleanup (lines 264 to 271) *)

(** The alternation [n/a|na|NaN|not|Likely] searched anywhere in the code. *)
Definition placeholder_tokens : list string :=
  ["n/a"; "na"; "NaN"; "not"; "Likely"].

Definition contains_placeholder (s : string) : bool :=
  existsb (fun p => PyStr.contains p s) placeholder_tokens.

(** [s.strip() != ''] fails. *)
Definition is_blank (s : string) : bool :=
  String.eqb (PyStr.strip s) EmptyString.

(** The character class [[+\/\(\)'~@\-or\s]] of the cleanup pattern. *)
Definition cut_chars : list ascii :=
  ["+"; "/"; "("; ")"; "'"; "~"; "@"; "-"; "o"; "r"]%char.

Definition in_class (c : ascii) : bool :=
  existsb (Ascii.eqb c) cut_chars || PyStr.is_space c.

(** [re.sub] with the pattern [r"[+\/\(\)'~@\-or\s].*"] and the empty
    replacement, which is what [str.replace(..., regex=True)] runs on each
    code: the scan goes left to right.
    Outside a match a character of the class opens a match and any other
    character is copied.  Inside a match [.] takes every character but a
    newline; at a newline the match ends and the scan resumes there.
    [matching] tells whether a match is open. *)
Fixpoint re_sub (matching : bool) (s : string) : string :=
  match s with
  | EmptyString => EmptyString
  | String c t =>
      if matching && negb (Ascii.eqb c PyStr.newline) then re_sub true t
      else if in_class c then re_sub true t
      else String c (re_sub false t)
  end.

Definition cleanup (s : string) : string := re_sub false s.

(** The rule in the words of the specification: keep the characters before
    the first one of the class, drop that one and everything behind it. *)
Fixpoint truncate_at_first_cut (s : string) : string :=
  match s with
  | EmptyString => EmptyString
  | String c t => if in_class c then EmptyString else String c (truncate_at_first_cut t)
  end.

Fixpoint has_cut_char (s : string) : bool :=
  match s with
  | EmptyString => false
  | String c t => in_class c || has_cut_char t
  end.

(** [out] is [s] cut at its first character of the class: either [s] has no
    such character and [out] is [s], or [s] is [out], then a character of the
    class, then anything, and [out] has no character of the class. *)
Definition truncated_at_first_cut (s out : string) : Prop :=
  (has_cut_char s = false /\ out = s) \/
  (exists c post,
      s = (out ++ String c post)%string /\
      has_cut_char out = false /\ in_class c = true).

(** ** Era labels and era bins (lines 236 to 243 and 311 to 315) *)

(** The [Age] column: [np.where(BP >= 1950, str(BP - 1949) + " BC",
    str(1950 - BP) + " AD")]. *)
Definition Age_of (mean_bp : Z) : string :=
  if (1950 <=? mean_bp)%Z
  then (PyStr.str_of_int (mean_bp - 1949) ++ " BC")%string
  else (PyStr.str_of_int (1950 - mean_bp) ++ " AD")%string.

Definition new_bp_ranges : list Z :=
  [1; 1000; 2000; 3000; 4000; 5000; 6000; 7000; 8000; 11000; 44500]%Z.

Definition bp_labels : list string :=
  ["1-1000"; "1001-2000"; "2001-3000"; "3001-4000"; "4001-5000";
   "5001-6000"; "6001-7000"; "7001-8000"; "8001-11000"; "11001-44500"].

(** [bins.searchsorted(x, side='left')] on sorted bins: the number of bin
    edges below [x]. *)
Definition searchsorted_left (bins : list Z) (x : Z) : nat :=
  length (filter (fun b => (b <? x)%Z) bins).

(** [pd.cut(x, bins, labels, right=True)]; [include_lowest] keeps its
    default [False].  Position 0 and position [len(bins)] are outside every
    bin and give NaN, here [None]. *)
Definition cut (bins : list Z) (labels : list string) (x : Z) : option string :=
  let i := searchsorted_left bins x in
  if (i =? 0) || (i =? length bins) then None
  else nth_error labels (i - 1).

Definition BP_range_of (mean_bp : Z) : option string :=
  cut new_bp_ranges bp_labels mean_bp.

(** A value of the [BP range] column: NaN or one of the ten labels. *)
Definition is_bin_value (v : option string) : Prop :=
  v = None \/ exists s, v = Some s /\ In s bp_labels.

(** ** The annotation table (lines 227 to 285) *)

(** A value of an object column: a string, or NaN for an empty sheet cell. *)
Inductive cell : Type :=
| Str (s : string)
| NaN.

(** A value of the coordinate columns as loaded: the text [".."], NaN or a
    number. *)
Inductive coord_cell : Type :=
| Dots
| CoordNaN
| Num (x : Q).

Definition cell_eqb (a b : cell) : bool :=
  match a, b with
  | Str s, Str t => String.eqb s t
  | NaN, NaN => true
  | _, _ => false
  end.

(** [astype(str)] on an object column. *)
Definition astype_str (c : cell) : string :=
  match c with
  | Str s => s
  | NaN => "nan"
  end.

(** [round(x, 2)]: the nearest multiple of 0.01, a tie going to the even
    one.  The result [n] stands for the number [n / 100]. *)
Definition round2 (x : Q) : Z :=
  let y := (x * 100)%Q in
  let f := Qfloor y in
  match Qcompare (y - inject_Z f) (1 # 2) with
  | Lt => f
  | Gt => (f + 1)%Z
  | Eq => if Z.even f then f else (f + 1)%Z
  end.

(** The exact-match table of [Country.replace]. *)
Definition country_fixes : list (string * string) :=
  [("China ", "China"); ("Gernamy", "Germany"); ("Turkey ", "Turkey");
   ("Federated States of Micronesia", "Micronesia")].

Fixpoint lookup_fix (fixes : list (string * string)) (s : string) : string :=
  match fixes with
  | [] => s
  | (k, v) :: rest => if String.eqb s k then v else lookup_fix rest s
  end.

Definition replace_country (c : cell) : cell :=
  match c with
  | Str s => Str (lookup_fix country_fixes s)
  | NaN => NaN
  end.

(** A row of the sheet, with the columns the script keeps. *)
Record raw_row : Type := {
  raw_idx : nat;
  raw_Mean_BP : Z;
  raw_Country : cell;
  raw_Lat : coord_cell;
  raw_Long : coord_cell;
  raw_Y_haplogroup : cell;
  raw_mtDNA_haplogroup : cell
}.

(** A row of [annotations] after line 271. *)
Record row : Type := {
  idx : nat;
  Mean_BP : Z;
  Country : cell;
  Lat : Z;
  Long : Z;
  Age : string;
  Y_haplogroup : string;
  mtDNA_haplogroup : string
}.

(** Lines 227 to 271 act row by row: each statement either rewrites a
    column or drops rows by a test on the row alone.  [clean_row] runs these
    statements on one row in the order of the script; [None] is a dropped
    row. *)
Definition clean_row (r : raw_row) : option row :=
  let country := replace_country (raw_Country r) in
  if (raw_Mean_BP r =? 0)%Z then None else
  let age := Age_of (raw_Mean_BP r) in
  match raw_Lat r, raw_Long r with
  | Dots, _ => None
  | _, Dots => None
  | CoordNaN, _ => None
  | _, CoordNaN => None
  | Num la, Num lo =>
      let y := astype_str (raw_Y_haplogroup r) in
      let m := astype_str (raw_mtDNA_haplogroup r) in
      if contains_placeholder y then None else
      if contains_placeholder m then None else
      if is_blank y then None else
      if is_blank m then None else
      Some {| idx := raw_idx r;
              Mean_BP := raw_Mean_BP r;
              Country := country;
              Lat := round2 la;
              Long := round2 lo;
              Age := age;
              Y_haplogroup := cleanup y;
              mtDNA_haplogroup := cleanup m |}
  end.

Fixpoint filter_map {A B : Type} (f : A -> option B) (l : list A) : list B :=
  match l with
  | [] => []
  | a :: rest =>
      match f a with
      | Some b => b :: filter_map f rest
      | None => filter_map f rest
      end
  end.

Definition annotations (sheet : list raw_row) : list row :=
  filter_map clean_row sheet.

Inductive lineage : Type := Y | mt.

Definition code_of (l : lineage) (r : row) : string :=
  match l with
  | Y => Y_haplogroup r
  | mt => mtDNA_haplogroup r
  end.

(** A row of [annotations_Y] or [annotations_mt]: the sibling code column is
    dropped, [BP range] is added at line 314 or 315. *)
Record lineage_row : Type := {
  l_idx : nat;
  l_Mean_BP : Z;
  l_Country : cell;
  l_Lat : Z;
  l_Long : Z;
  l_Age : string;
  haplogroup : string;
  BP_range : option string
}.

Definition view (l : lineage) (r : row) : lineage_row :=
  {| l_idx := idx r;
     l_Mean_BP := Mean_BP r;
     l_Country := Country r;
     l_Lat := Lat r;
     l_Long := Long r;
     l_Age := Age r;
     haplogroup := code_of l r;
     BP_range := BP_range_of (Mean_BP r) |}.

(** The unknown code [".."] is removed per table. *)
Definition is_unknown (s : string) : bool := String.eqb s "..".

(** [annotations_Y] and [annotations_mt] as the clustering reads them. *)
Definition lineage_table (l : lineage) (sheet : list raw_row) : list lineage_row :=
  map (view l) (filter (fun r => negb (is_unknown (code_of l r))) (annotations sheet)).

Definition annotations_Y := lineage_table Y.
Definition annotations_mt := lineage_table mt.

(** [Y_unknowns_count] and [mt_unknowns_count]: the codes that contain two
    dots in a row. *)
Definition unknowns_count (l : lineage) (sheet : list raw_row) : nat :=
  length (filter (fun r => PyStr.contains ".." (code_of l r)) (annotations sheet)).

(** A code that the shared filters of lines 264 to 267 let through. *)
Definition code_usable (c : cell) : bool :=
  negb (contains_placeholder (astype_str c)) && negb (is_blank (astype_str c)).

Definition has_coordinates (r : raw_row) : bool :=
  match raw_Lat r, raw_Long r with
  | Num _, Num _ => true
  | _, _ => false
  end.

(** The tests of lines 236 to 267 that a row must pass to stay in
    [annotations]; they read both code columns. *)
Definition passes_shared_filters (r : raw_row) : bool :=
  negb (raw_Mean_BP r =? 0)%Z && has_coordinates r
  && code_usable (raw_Y_haplogroup r) && code_usable (raw_mtDNA_haplogroup r).

Definition raw_code (l : lineage) (r : raw_row) : cell :=
  match l with
  | Y => raw_Y_haplogroup r
  | mt => raw_mtDNA_haplogroup r
  end.

(** The sheet row [r] has a row in the table of lineage [l]. *)
Definition appears (l : lineage) (sheet : list raw_row) (r : raw_row) : Prop :=
  exists x, In x (lineage_table l sheet) /\ l_idx x = raw_idx r.

(** ** The summary of one cluster (lines 417 to 432, again 466 to 481) *)

(** [Series.unique()] and [drop_duplicates()]: the values in the order of
    their first appearance. *)
Fixpoint unique {A : Type} (eqb : A -> A -> bool) (l : list A) : list A :=
  match l with
  | [] => []
  | a :: rest => a :: filter (fun b => negb (eqb a b)) (unique eqb rest)
  end.

Definition label_eqb (a b : option string) : bool :=
  match a, b with
  | Some s, Some t => String.eqb s t
  | None, None => true
  | _, _ => false
  end.

(** The sort key [lambda x: int(x.split('-')[0])], paired with its value.
    NaN is a float and has no [split]. *)
Definition keyed (x : option string) : result (Z * string) :=
  match x with
  | None => Raise AttributeError
  | Some s =>
      piece <- index (PyStr.split "-" s) 0 ;;
      match PyStr.int piece with
      | Some n => Ok (n, s)
      | None => Raise ValueError
      end
  end.

Fixpoint insert_by_key (x : Z * string) (l : list (Z * string)) : list (Z * string) :=
  match l with
  | [] => [x]
  | y :: rest =>
      if (fst x <=? fst y)%Z then x :: y :: rest
      else y :: insert_by_key x rest
  end.

(** [sorted(values, key=...)]: every key is computed first, in order, then
    the values are sorted by key, equal keys keeping their order. *)
Definition sorted_by_key (values : list (option string)) : result (list string) :=
  pairs <- mapM keyed values ;;
  Ok (map snd (fold_right insert_by_key [] pairs)).

(** [bp_ranges], [cluster_first_bp], [cluster_last_bp], [cluster_range]. *)
Definition cluster_range_of (subset : list lineage_row) : result (list string * string) :=
  bp_ranges <- sorted_by_key (unique label_eqb (map BP_range subset)) ;;
  first <- index bp_ranges 0 ;;
  cluster_first_bp <- index (PyStr.split "-" first) 0 ;;
  last <- index bp_ranges (length bp_ranges - 1) ;;
  cluster_last_bp <- index (PyStr.split "-" last) 1 ;;
  if String.eqb cluster_first_bp cluster_last_bp
  then Ok (bp_ranges, (first ++ " BP")%string)
  else Ok (bp_ranges, (cluster_first_bp ++ "-" ++ cluster_last_bp ++ " BP")%string).

(** A string of the sequence handed to [join]; NaN is a float there. *)
Definition as_str (c : cell) : result string :=
  match c with
  | Str s => Ok s
  | NaN => Raise TypeError
  end.

(** [countries] and [cluster_countries]. *)
Definition cluster_countries_of (subset : list lineage_row) : result cell :=
  let countries := unique cell_eqb (map l_Country subset) in
  if length countries <? 2 then index countries 0
  else names <- mapM as_str countries ;; Ok (Str (PyStr.join "<br>" names)).

(** The three values that [create_Sunburst] reads for the legend. *)
Record summary : Type := {
  cluster_countries : cell;
  total_indivs : nat;
  cluster_range : string
}.

(** The format of a value inside an f-string. *)
Definition format_cell (c : cell) : string :=
  match c with
  | Str s => s
  | NaN => "nan"
  end.

(** [popup_text] of [create_Sunburst]. *)
Definition popup_text (s : summary) : string :=
  (format_cell (cluster_countries s) ++ "<br>"
   ++ PyStr.str_of_nat (total_indivs s) ++ " individuals<br>"
   ++ cluster_range s)%string.

(** The body of the loop from [total_indivs] to [cluster_countries]; the
    sorted [bp_ranges] become the tags of the marker. *)
Definition summarize (subset : list lineage_row) : result (summary * list string) :=
  let total := length subset in
  rng <- cluster_range_of subset ;;
  cs <- cluster_countries_of subset ;;
  Ok ({| cluster_countries := cs; total_indivs := total; cluster_range := snd rng |},
      fst rng).

(** ** The command line (lines 131 to 172) *)

Module Cli.

Definition file_name : string := "AADR Annotations 2025.xlsx".

Definition nl : string := String PyStr.newline EmptyString.
Definition dquote : string := String (ascii_of_nat 34) EmptyString.

(** The first line of each message that the script prints before [exit()]. *)
Definition diag_too_many : string :=
  "Error: Too many arguments. Please only provide the AADR excel annotations file and optionally requested cluster numbers.".
Definition diag_file : string :=
  ("Error: Please provide the correct file (" ++ dquote ++ file_name ++ dquote ++ ").")%string.
Definition diag_integer : string :=
  "Error: Please provide an integer between 5 and 500 following the --cluster flags.".
Definition diag_Y : string :=
  "Error: Cluster number for Y must be between 5 and 500.".
Definition diag_mt : string :=
  "Error: Cluster number for mt must be between 5 and 500.".

(** The printed texts: the diagnostic line, a newline, the closing line. *)
Definition msg_too_many : string := (diag_too_many ++ nl ++ "Program terminated.")%string.
Definition msg_file : string := (diag_file ++ nl ++ "Program terminated")%string.
Definition msg_integer : string := (diag_integer ++ nl ++ "Program terminated")%string.
Definition msg_Y : string := (diag_Y ++ nl ++ "Program terminated.")%string.
Definition msg_mt : string := (diag_mt ++ nl ++ "Program terminated.")%string.

(** *** [argparse] for the parser of lines 149 to 158

    The parser has the positional [input_file] and the options [-h],
    [--help], [--cluster_Y] and [--cluster_mt].  The model follows
    [ArgumentParser._parse_known_args] of CPython 3.11.  What [argparse]
    itself writes to the terminal is not modelled. *)

Inductive action : Type :=
| Help
| Cluster (l : lineage).

Definition option_strings : list (string * action) :=
  [("-h", Help); ("--help", Help);
   ("--cluster_Y", Cluster Y); ("--cluster_mt", Cluster mt)].

Fixpoint lookup_option (table : list (string * action)) (s : string) : option action :=
  match table with
  | [] => None
  | (k, a) :: rest => if String.eqb s k then Some a else lookup_option rest s
  end.

(** [s.split('=', 1)] when [s] holds an equals sign. *)
Fixpoint split_eq (s : string) : option (string * string) :=
  match s with
  | EmptyString => None
  | String c t =>
      if Ascii.eqb c "=" then Some (EmptyString, t)
      else match split_eq t with
           | Some (a, b) => Some (String c a, b)
           | None => None
           end
  end.

Fixpoint all_digits (s : string) : bool :=
  match s with
  | EmptyString => true
  | String c t => PyStr.is_digit c && all_digits t
  end.

Definition nonempty (s : string) : bool :=
  match s with
  | EmptyString => false
  | String _ _ => true
  end.

(** [s] without one newline at its end: [$] also matches before it. *)
Fixpoint chomp (s : string) : string :=
  match s with
  | EmptyString => EmptyString
  | String c EmptyString => if Ascii.eqb c PyStr.newline then EmptyString else s
  | String c t => String c (chomp t)
  end.

(** The digits at the front of [s] and what follows them. *)
Fixpoint span_digits (s : string) : string * string :=
  match s with
  | EmptyString => (EmptyString, EmptyString)
  | String c t =>
      if PyStr.is_digit c
      then let '(d, r) := span_digits t in (String c d, r)
      else (EmptyString, s)
  end.

(** [_negative_number_matcher]: [^-\d+$|^-\d*\.\d+$]. *)
Definition negative_number (s : string) : bool :=
  match s with
  | String c t =>
      Ascii.eqb c "-" &&
      (let body := chomp t in
       (nonempty body && all_digits body) ||
       match snd (span_digits body) with
       | String d frac => Ascii.eqb d "." && nonempty frac && all_digits frac
       | EmptyString => false
       end)
  | EmptyString => false
  end.

Fixpoint has_char (c : ascii) (s : string) : bool :=
  match s with
  | EmptyString => false
  | String d t => Ascii.eqb c d || has_char c t
  end.

(** What [_parse_optional] makes of one argument. *)
Inductive parsed : Type :=
| IsPositional
| IsOptional (a : option action) (explicit : option string)
| Ambiguous.

(** [_get_option_tuples]: the options that the argument may abbreviate. *)
Definition get_option_tuples (arg : string) : list (action * option string) :=
  match arg with
  | String _ (String c1 _) =>
      if Ascii.eqb c1 "-" then
        let '(option_prefix, explicit) :=
          match split_eq arg with
          | Some (p, e) => (p, Some e)
          | None => (arg, None)
          end in
        flat_map (fun '(o, a) =>
                    if prefix option_prefix o then [(a, explicit)] else [])
                 option_strings
      else
        let short_option_prefix := substring 0 2 arg in
        let short_explicit_arg := substring 2 (String.length arg - 2) arg in
        flat_map (fun '(o, a) =>
                    if String.eqb o short_option_prefix then [(a, Some short_explicit_arg)]
                    else if prefix arg o then [(a, None)] else [])
                 option_strings
  | _ => []
  end.

Definition parse_optional (arg : string) : parsed :=
  match arg with
  | EmptyString => IsPositional
  | String c0 _ =>
      if negb (Ascii.eqb c0 "-") then IsPositional else
      match lookup_option option_strings arg with
      | Some a => IsOptional (Some a) None
      | None =>
          if String.length arg =? 1 then IsPositional else
          let by_equals :=
            match split_eq arg with
            | Some (o, e) =>
                match lookup_option option_strings o with
                | Some a => Some (IsOptional (Some a) (Some e))
                | None => None
                end
            | None => None
            end in
          match by_equals with
          | Some p => p
          | None =>
              match get_option_tuples arg with
              | _ :: _ :: _ => Ambiguous
              | [(a, explicit)] => IsOptional (Some a) explicit
              | [] =>
                  if negative_number arg then IsPositional
                  else if has_char " " arg then IsPositional
                  else IsOptional None None
              end
          end
      end
  end.

(** One letter of [arg_strings_pattern]. *)
Inductive arg_class : Type :=
| A
| O (a : option action) (explicit : option string)
| Dash.

(** The pattern of the argument list; everything behind the first [--] is
    an argument.  [None]: an ambiguous option, which is an error. *)
Fixpoint classify (args : list string) : option (list (arg_class * string)) :=
  match args with
  | [] => Some []
  | arg :: rest =>
      if String.eqb arg "--" then Some ((Dash, arg) :: map (fun s => (A, s)) rest)
      else
        match parse_optional arg, classify rest with
        | Ambiguous, _ => None
        | _, None => None
        | IsPositional, Some cs => Some ((A, arg) :: cs)
        | IsOptional a e, Some cs => Some ((O a e, arg) :: cs)
        end
  end.

Record namespace : Type := {
  cluster_Y : Z;
  cluster_mt : Z
}.

(** [default=150] and [default=350]. *)
Definition defaults : namespace :=
  {| cluster_Y := 150; cluster_mt := 350 |}.

Definition store (l : lineage) (v : Z) (ns : namespace) : namespace :=
  match l with
  | Y => {| cluster_Y := v; cluster_mt := cluster_mt ns |}
  | mt => {| cluster_Y := cluster_Y ns; cluster_mt := v |}
  end.

(** [_get_value] for [type=int]: the argument goes through [int] as it is;
    [None] is the error [invalid int value]. *)
Definition get_value (arg : string) : option Z := PyStr.int arg.

(** The scan of the classified arguments.  [positional_left] tells whether
    [input_file] is still to be matched.  [None] is [SystemExit]: an error
    of the parser or the help text.  An argument that nothing consumes is
    reported as unrecognized when the scan is over; as every end of the scan
    is then an exit, the model exits at once. *)
Fixpoint consume (positional_left : bool) (ns : namespace)
    (args : list (arg_class * string)) : option namespace :=
  match args with
  | [] => if positional_left then None else Some ns
  | (O None _, _) :: _ => None
  | (O (Some Help) _, _) :: _ => None
  | (O (Some (Cluster l)) (Some explicit), _) :: rest =>
      match get_value explicit with
      | Some v => consume positional_left (store l v ns) rest
      | None => None
      end
  | (O (Some (Cluster l)) None, _) :: (A, value) :: rest =>
      match get_value value with
      | Some v => consume positional_left (store l v ns) rest
      | None => None
      end
  | (O (Some (Cluster l)) None, _) :: _ => None
  | (A, _) :: (Dash, _) :: rest =>
      if positional_left then consume false ns rest else None
  | (A, _) :: rest =>
      if positional_left then consume false ns rest else None
  | (Dash, _) :: (A, _) :: rest =>
      if positional_left then consume false ns rest else None
  | (Dash, _) :: _ => None
  end.

(** Two shapes of an argument list that no scan gets past: a cluster option
    whose next argument is no integer, and two arguments behind [--]. *)
Inductive fatal : list (arg_class * string) -> Prop :=
| fatal_value l s c t rest :
    (c = A -> get_value t = None) ->
    fatal ((O (Some (Cluster l)) None, s) :: (c, t) :: rest)
| fatal_extra s t1 t2 rest :
    fatal ((Dash, s) :: (A, t1) :: (A, t2) :: rest).

Definition no_dash (cs : list (arg_class * string)) : Prop :=
  Forall (fun p => fst p <> Dash) cs.

(** [parser.parse_args()] on [sys.argv[1:]]. *)
Definition parse_args (args : list string) : option namespace :=
  match classify args with
  | Some cs => consume true defaults cs
  | None => None
  end.

(** How the checks of lines 131 to 172 end: a message and [exit()], or the
    two cluster numbers. *)
Inductive checked : Type :=
| Exit (printed : string)
| Proceed (n_clusters_Y n_clusters_mt : Z).

Definition in_range (n : Z) : bool := (5 <=? n)%Z && (n <=? 500)%Z.

(** Lines 131 to 172 on [sys.argv], for a sheet that [read_excel] loads.
    The bare [except] also catches the [SystemExit] of the parser. *)
Definition check (argv : list string) : checked :=
  if 6 <? length argv then Exit msg_too_many
  else if negb (String.eqb (last argv EmptyString) file_name) then Exit msg_file
  else
    match parse_args (tl argv) with
    | None => Exit msg_integer
    | Some args =>
        if negb (in_range (cluster_Y args)) then Exit msg_Y
        else if negb (in_range (cluster_mt args)) then Exit msg_mt
        else Proceed (cluster_Y args) (cluster_mt args)
    end.

(** A printed text that is one diagnostic line followed by the closing
    line. *)
Definition one_line_diagnostic (printed : string) : Prop :=
  exists diag closing,
    printed = (diag ++ nl ++ closing)%string /\
    has_char PyStr.newline diag = false /\
    (closing = "Program terminated." \/ closing = "Program terminated").

(** The two flags of the cluster numbers. *)
Definition cluster_flag (s : string) : Prop :=
  s = "--cluster_Y" \/ s = "--cluster_mt".

End Cli.

(** ** Clustering and the marker loops (lines 379 to 494) *)

Definition coord : Type := (Z * Z)%type.

Definition coord_eqb (a b : coord) : bool :=
  (fst a =? fst b)%Z && (snd a =? snd b)%Z.

Definition coord_of (r : lineage_row) : coord := (l_Lat r, l_Long r).

(** [lat_long_locations_Y]: columns 2 and 3 are [Lat] and [Long]. *)
Definition lat_long_locations (data : list lineage_row) : list coord :=
  unique coord_eqb (map coord_of data).

(** [values.isin(points)] on one value. *)
Definition isin (c : coord) (points : list coord) : bool :=
  existsb (coord_eqb c) points.

(** The rows of [lat_long_locations] with [Cluster == cluster_id]. *)
Definition cluster_points (labelled : list (coord * nat)) (cluster_id : nat) : list coord :=
  map fst (filter (fun p => snd p =? cluster_id) labelled).

(** [subset]: the rows of the table whose coordinates are in the cluster. *)
Definition subset_of (data : list lineage_row) (points : list coord) : list lineage_row :=
  filter (fun r => isin (coord_of r) points) data.

Definition coord_eq_dec (a b : coord) : {a = b} + {a <> b}.
Proof. decide equality; apply Z.eq_dec. Defined.

(** The count in the words of the specification: the rows of the table whose pair
    [(Lat, Long)] belongs to the set of coordinates of the cluster. *)
Definition records_in_cluster (data : list lineage_row) (points : list coord) : nat :=
  length (filter (fun r => if in_dec coord_eq_dec (coord_of r) points then true else false)
                 data).

Section Clustering.

(** A cluster centre, a pair of floats in the script. *)
Variable centroid : Type.

(** [KMeans(n_clusters=k, random_state=42, n_init=10).fit(X)], giving
    [labels_] and [cluster_centers_]; [None] when [fit] raises. *)
Variable KMeans_fit : nat -> list coord -> option (list nat * list centroid).

(** A marker of the map: its place, the legend of its popup, its tags. *)
Record marker : Type := {
  location : centroid;
  legend : summary;
  tags : list string
}.

(** [KMeans(...).fit(coords)]. *)
Definition fit (k : nat) (locations : list coord) : result (list nat * list centroid) :=
  match KMeans_fit k locations with
  | Some model => Ok model
  | None => Raise ValueError
  end.

(** [lat_long_locations["Cluster"] = labels_]: a column must be as long
    as the table. *)
Definition add_cluster_labels (locations : list coord) (labels : list nat)
  : result (list (coord * nat)) :=
  if length labels =? length locations then Ok (combine locations labels)
  else Raise ValueError.

(** One pass of the loop over [range(n_clusters)]. *)
Definition cluster_marker (data : list lineage_row) (labelled : list (coord * nat))
    (centers : list centroid) (cluster_id : nat) : result marker :=
  let points := cluster_points labelled cluster_id in
  center <- index centers cluster_id ;;
  let subset := subset_of data points in
  s <- summarize subset ;;
  Ok {| location := center; legend := fst s; tags := snd s |}.

Definition markers (data : list lineage_row) (labelled : list (coord * nat))
    (centers : list centroid) (n_clusters : nat) : result (list marker) :=
  mapM (cluster_marker data labelled centers) (seq 0 n_clusters).

End Clustering.

Arguments location {centroid} m.
Arguments legend {centroid} m.
Arguments tags {centroid} m.

(** ** The whole run *)

Section Script.

Variable centroid : Type.
Variable KMeans_fit : nat -> list coord -> option (list nat * list centroid).

(** How a run ends: a message and [exit()], an exception that nothing
    catches, or the saved map with its two marker layers. *)
Inductive outcome : Type :=
| Exited (printed : string)
| Raised (e : exn)
| Saved (fg_Y fg_mt : list (marker centroid)).

(** Lines 379 to 494: both fits, both label columns, both marker loops. *)
Definition build_map (sheet : list raw_row) (n_clusters_Y n_clusters_mt : nat)
  : result (list (marker centroid) * list (marker centroid)) :=
  let lat_long_locations_Y := lat_long_locations (annotations_Y sheet) in
  let lat_long_locations_mt := lat_long_locations (annotations_mt sheet) in
  kmeans_Y <- fit centroid KMeans_fit n_clusters_Y lat_long_locations_Y ;;
  kmeans_mt <- fit centroid KMeans_fit n_clusters_mt lat_long_locations_mt ;;
  labelled_Y <- add_cluster_labels lat_long_locations_Y (fst kmeans_Y) ;;
  labelled_mt <- add_cluster_labels lat_long_locations_mt (fst kmeans_mt) ;;
  fg_Y <- markers centroid (annotations_Y sheet) labelled_Y (snd kmeans_Y) n_clusters_Y ;;
  fg_mt <- markers centroid (annotations_mt sheet) labelled_mt (snd kmeans_mt) n_clusters_mt ;;
  Ok (fg_Y, fg_mt).

Definition run (argv : list string) (sheet : list raw_row) : outcome :=
  match Cli.check argv with
  | Cli.Exit printed => Exited printed
  | Cli.Proceed n_clusters_Y n_clusters_mt =>
      match build_map sheet (Z.to_nat n_clusters_Y) (Z.to_nat n_clusters_mt) with
      | Ok (fg_Y, fg_mt) => Saved fg_Y fg_mt
      | Raise e => Raised e
      end
  end.

End Script.

Arguments Exited {centroid} printed.
Arguments Raised {centroid} e.
Arguments Saved {centroid} fg_Y fg_mt.

(** The run ends on a diagnostic: nothing is clustered, no map is saved. *)
Definition rejected {centroid : Type} (o : outcome centroid) : Prop :=
  exists printed, o = Exited printed /\ Cli.one_line_diagnostic printed.

(** ** Sample rows *)

Definition sample (i : nat) (bp : Z) (country : string) (la lo : Q)
    (y m : cell) : raw_row :=
  {| raw_idx := i;
     raw_Mean_BP := bp;
     raw_Country := Str country;
     raw_Lat := Num la;
     raw_Long := Num lo;
     raw_Y_haplogroup := y;
     raw_mtDNA_haplogroup := m |}.

(** A man with a usable Y code and no mtDNA call. *)
Definition no_mt_call : raw_row :=
  sample 0 3000 "France" 48.8566%Q 2.3522%Q (Str "R1b1a2") (Str "n/a").

(** A Bronze Age sample with suffixes on both codes, and its row in
    [annotations]. *)
Definition bronze_age : raw_row :=
  sample 1 3500 "Germany" 51.05%Q 13.74%Q (Str "R1a1a~") (Str "H1+16189").

Definition bronze_age_row : row :=
  {| idx := 1;
     Mean_BP := 3500;
     Country := Str "Germany";
     Lat := 5105;
     Long := 1374;
     Age := "1551 BC";
     Y_haplogroup := "R1a1a";
     mtDNA_haplogroup := "H1" |}.

(** A sample whose mtDNA code is the unknown code. *)
Definition unknown_mt : raw_row :=
  sample 2 900 "Gernamy" 51.049%Q 13.741%Q (Str "I2a") (Str "..").

(** A sample dated to the year before 1950. *)
Definition first_year : raw_row :=
  sample 3 1 "Italy" 41.9%Q 12.5%Q (Str "J2b") (Str "K1a").

(** The row of [first_year] in the Y table: it has no era bin. *)
Definition first_year_Y : lineage_row :=
  {| l_idx := 3;
     l_Mean_BP := 1;
     l_Country := Str "Italy";
     l_Lat := 4190;
     l_Long := 1250;
     l_Age := "1949 AD";
     haplogroup := "J2b";
     BP_range := None |}.

(** Five sites, one sample each. *)
Definition five_sites : list raw_row :=
  [ sample 10 2500 "Spain" 40.42%Q (-3.7)%Q (Str "R1b") (Str "H1");
    sample 11 4200 "France" 48.86%Q 2.35%Q (Str "I2a") (Str "U5");
    sample 12 5100 "Italy" 41.9%Q 12.5%Q (Str "G2a") (Str "K1");
    sample 13 7300 "Greece" 37.98%Q 23.73%Q (Str "J2") (Str "T2");
    sample 14 950 "Poland" 52.23%Q 21.01%Q (Str "R1a") (Str "H5") ].

(** A stand-in for a fitted model: point [i] gets the label [i mod k], and
    there are [k] centres. *)
Definition round_robin_fit (k : nat) (X : list coord) : option (list nat * list unit) :=
  if (1 <=? k) && (k <=? length X)
  then Some (map (fun i => i mod k) (seq 0 (length X)), repeat tt k)
  else None.

(** ** Further parts of the script *)

(** [code[:n]] (lines 332 to 340). *)
Definition str_prefix (n : nat) (code : string) : string := substring 0 n code.

(** The four subgroup columns, which are the path of the sunburst chart. *)
Record subgroups : Type := {
  first_letter : string;
  first_two_letters : string;
  first_three_letters : string;
  first_five_letters : string
}.

Definition subgroups_of (code : string) : subgroups :=
  {| first_letter := str_prefix 1 code;
     first_two_letters := str_prefix 2 code;
     first_three_letters := str_prefix 3 code;
     first_five_letters := str_prefix 5 code |}.

(** The rows that lines 282 and 285 remove from a table. *)
Definition removed_unknowns (l : lineage) (sheet : list raw_row) : nat :=
  length (filter (fun r => is_unknown (code_of l r)) (annotations sheet)).

(** [dropna()] on a column of labels. *)
Definition dropna (values : list (option string)) : list string :=
  filter_map (fun v => v) values.

(** [bp_range_categories] (line 326): the bins that occur in the shared
    table, each once, in the order of their first row. *)
Definition bp_range_categories (sheet : list raw_row) : list string :=
  unique String.eqb
    (dropna (map (fun r => BP_range_of (Mean_BP r)) (annotations sheet))).

(** [bp_range_categories_sorted] (line 503), the buttons of the tag filter. *)
Definition bp_range_categories_sorted (sheet : list raw_row) : result (list string) :=
  sorted_by_key (map Some (bp_range_categories sheet)).

(** The number that the sort key reads off a label, 0 where it reads none. *)
Definition lower_bound (label : string) : Z :=
  match keyed (Some label) with
  | Ok (n, _) => n
  | Raise _ => 0%Z
  end.


(** The order in which [sorted] leaves the labels: by the number in front,
    and strictly so. *)
Definition by_lower_bound (a b : string) : Prop :=
  (lower_bound a <= lower_bound b)%Z.

Definition strictly_by_lower_bound (a b : string) : Prop :=
  (lower_bound a < lower_bound b)%Z.

(** The order of the keyed values inside [sorted]. *)
Definition le_key (p q : Z * string) : Prop := (fst p <= fst q)%Z.

(** The names among the countries of some rows, in the order of the rows. *)
Definition country_names (subset : list lineage_row) : list string :=
  filter_map (fun r => match l_Country r with
                       | Str s => Some s
                       | NaN => None
                       end) subset.

(** The two spellings of the help option. *)
Definition help_flag (s : string) : Prop := s = "-h" \/ s = "--help".


(** ** More sample rows *)

(** A sample whose Y code opens with a bracket. *)
Definition bracketed : raw_row :=
  sample 20 2600 "Spain" 40.42%Q (-3.7)%Q (Str "(R1b)") (Str "H1").

(** A sample whose mtDNA code holds two dots inside. *)
Definition dotted : raw_row :=
  sample 21 2600 "Spain" 40.42%Q (-3.7)%Q (Str "R1b") (Str "H..1").

(** * Properties *)

(** ** Strings *)

Example strip_ex : PyStr.strip "  R1b " = "R1b".
Proof. reflexivity. Qed.

Example split_ex : PyStr.split "-" "1001-2000" = ["1001"; "2000"].
Proof. reflexivity. Qed.

Example int_ex :
  PyStr.int "1001" = Some 1001%Z /\ PyStr.int "1_0" = Some 10%Z /\
  PyStr.int "-3" = Some (-3)%Z /\ PyStr.int "5.0" = None /\ PyStr.int EmptyString = None.
Proof. repeat split; reflexivity. Qed.

Example str_of_int_ex :
  PyStr.str_of_int 51 = "51" /\ PyStr.str_of_int 0 = "0" /\ PyStr.str_of_int (-7) = "-7".
Proof. repeat split; reflexivity. Qed.

(** ** Cleanup of a lineage code *)

Lemma newline_in_class : in_class PyStr.newline = true.
Proof. reflexivity. Qed.

(** Once a match is open it runs to the end of the string: a newline ends
    the match but opens the next one. *)
Lemma re_sub_matching (s : string) : re_sub true s = EmptyString.
Proof.
  induction s as [|c t IH]; simpl; [reflexivity|].
  destruct (Ascii.eqb c PyStr.newline) eqn:E; simpl.
  - apply Ascii.eqb_eq in E. subst c. rewrite newline_in_class. exact IH.
  - exact IH.
Qed.

Lemma cleanup_truncate (s : string) : cleanup s = truncate_at_first_cut s.
Proof.
  unfold cleanup.
  induction s as [|c t IH]; simpl; [reflexivity|].
  destruct (in_class c).
  - apply re_sub_matching.
  - now rewrite IH.
Qed.

Lemma truncate_no_cut (s : string) : has_cut_char (truncate_at_first_cut s) = false.
Proof.
  induction s as [|c t IH]; simpl; [reflexivity|].
  destruct (in_class c) eqn:E; simpl; [reflexivity|].
  now rewrite E, IH.
Qed.

Lemma truncate_fixed (s : string) :
  has_cut_char s = false -> truncate_at_first_cut s = s.
Proof.
  induction s as [|c t IH]; simpl; [reflexivity|].
  destruct (in_class c); simpl; [discriminate|].
  intros H. now rewrite IH.
Qed.

Lemma truncate_split (s : string) :
  has_cut_char s = true ->
  exists c post, s = (truncate_at_first_cut s ++ String c post)%string /\ in_class c = true.
Proof.
  induction s as [|c t IH]; simpl; [discriminate|].
  destruct (in_class c) eqn:E; simpl.
  - intros _. now exists c, t.
  - intros H. destruct (IH H) as (d & post & Hs & Hd).
    exists d, post. split; [now rewrite <- Hs | exact Hd].
Qed.

Lemma cleanup_unchanged (s : string) : has_cut_char s = false -> cleanup s = s.
Proof. intros H. rewrite cleanup_truncate. now apply truncate_fixed. Qed.

(** C4: cleanup cuts a code at, and including, its first character among
    [+ / ( ) ' ~ @ - o r] and white space; a code with none of them is left
    as it is; ["R1b1a2a1a2~"] becomes ["R1b1a2a1a2"]. *)
Theorem cleanup_cuts_at_first_class_char :
  (forall c, in_class c = true <-> In c cut_chars \/ PyStr.is_space c = true) /\
  (forall s, truncated_at_first_cut s (cleanup s)) /\
  cleanup "R1b1a2a1a2~" = "R1b1a2a1a2" /\
  cleanup "R1a1-or H2" = "R1a1" /\ cleanup "Horse" = "H".
Proof.
  split; [|split; [|repeat split; reflexivity]].
  - intros c. unfold in_class. rewrite orb_true_iff, existsb_exists.
    split; intros [H|H]; auto; left.
    + destruct H as (d & Hin & Heq). apply Ascii.eqb_eq in Heq. now subst d.
    + exists c. split; [exact H | apply Ascii.eqb_refl].
  - intros s. unfold truncated_at_first_cut. rewrite cleanup_truncate.
    destruct (has_cut_char s) eqn:E.
    + right. destruct (truncate_split s E) as (c & post & Hs & Hc).
      exists c, post. repeat split; [exact Hs | apply truncate_no_cut | exact Hc].
    + left. split; [reflexivity | now apply truncate_fixed].
Qed.

(** C8: cleaning a code twice gives what cleaning it once gives, as the
    cleaned code holds no character of the class any more. *)
Theorem cleanup_idempotent (s : string) :
  cleanup (cleanup s) = cleanup s /\ has_cut_char (cleanup s) = false.
Proof.
  assert (H : has_cut_char (cleanup s) = false)
    by (rewrite cleanup_truncate; apply truncate_no_cut).
  split; [now apply cleanup_unchanged | exact H].
Qed.

(** ** The annotation table *)

Lemma In_filter_map {A B : Type} (f : A -> option B) (l : list A) (b : B) :
  In b (filter_map f l) <-> exists a, In a l /\ f a = Some b.
Proof.
  induction l as [|a rest IH]; simpl.
  - split; [tauto | intros (a & [] & _)].
  - destruct (f a) as [b'|] eqn:E; simpl; rewrite IH; split.
    + intros [->|(a' & Hin & Hf)]; [exists a; auto | exists a'; auto].
    + intros (a' & [->|Hin] & Hf); [left; congruence | right; exists a'; auto].
    + intros (a' & Hin & Hf). exists a'; auto.
    + intros (a' & [->|Hin] & Hf); [congruence | exists a'; auto].
Qed.

(** A branch of [clean_row] that drops the row, or a test that fails. *)
Ltac dropped := let H := fresh in intros H; discriminate H.

(** What a kept row holds, and why it was kept. *)
Lemma clean_row_Some (raw : raw_row) (r : row) :
  clean_row raw = Some r ->
  passes_shared_filters raw = true /\
  idx r = raw_idx raw /\
  Mean_BP r = raw_Mean_BP raw /\
  Age r = Age_of (raw_Mean_BP raw) /\
  Y_haplogroup r = cleanup (astype_str (raw_Y_haplogroup raw)) /\
  mtDNA_haplogroup r = cleanup (astype_str (raw_mtDNA_haplogroup raw)).
Proof.
  unfold clean_row, passes_shared_filters, has_coordinates, code_usable.
  destruct (raw_Mean_BP raw =? 0)%Z; [dropped|].
  destruct (raw_Lat raw), (raw_Long raw); try dropped.
  destruct (contains_placeholder (astype_str (raw_Y_haplogroup raw))); [dropped|].
  destruct (contains_placeholder (astype_str (raw_mtDNA_haplogroup raw))); [dropped|].
  destruct (is_blank (astype_str (raw_Y_haplogroup raw))); [dropped|].
  destruct (is_blank (astype_str (raw_mtDNA_haplogroup raw))); [dropped|].
  intros H. injection H as <-. simpl. repeat split; reflexivity.
Qed.

Lemma clean_row_kept (raw : raw_row) :
  passes_shared_filters raw = true -> exists r, clean_row raw = Some r.
Proof.
  unfold passes_shared_filters, code_usable. intros H.
  apply andb_true_iff in H as [H Hm]. apply andb_true_iff in H as [H Hy].
  apply andb_true_iff in H as [Hb Hc].
  apply andb_true_iff in Hm as [Hm1 Hm2]. apply andb_true_iff in Hy as [Hy1 Hy2].
  apply negb_true_iff in Hb, Hm1, Hm2, Hy1, Hy2.
  unfold clean_row, has_coordinates in *. rewrite Hb.
  destruct (raw_Lat raw), (raw_Long raw); try discriminate.
  rewrite Hy1, Hm1, Hy2, Hm2. eexists. reflexivity.
Qed.

Lemma In_lineage_table (l : lineage) (sheet : list raw_row) (x : lineage_row) :
  In x (lineage_table l sheet) <->
  exists raw r, In raw sheet /\ clean_row raw = Some r /\
                is_unknown (code_of l r) = false /\ x = view l r.
Proof.
  unfold lineage_table, annotations. rewrite in_map_iff. split.
  - intros (r & <- & Hin). apply filter_In in Hin as [Hin Hu].
    apply In_filter_map in Hin as (raw & Hraw & Hc).
    exists raw, r. repeat split; auto. now apply negb_true_iff in Hu.
  - intros (raw & r & Hraw & Hc & Hu & ->). exists r. split; [reflexivity|].
    apply filter_In. split; [apply In_filter_map; eauto | now rewrite Hu].
Qed.

(** ** Era labels *)

(** C5: a row of the table with age 1950 or more carries the label
    ["{age-1949} BC"], a row with age 1 to 1949 the label ["{1950-age} AD"];
    no row of the table has age 0, a sheet row of age 0 being dropped before
    the label column exists. *)
Theorem era_label_derivation (sheet : list raw_row) (r : row)
    (Hin : In r (annotations sheet)) :
  (exists raw, In raw sheet /\ raw_idx raw = idx r /\ raw_Mean_BP raw = Mean_BP r) /\
  Mean_BP r <> 0%Z /\
  ((1950 <= Mean_BP r)%Z ->
     Age r = (PyStr.str_of_int (Mean_BP r - 1949) ++ " BC")%string) /\
  ((1 <= Mean_BP r <= 1949)%Z ->
     Age r = (PyStr.str_of_int (1950 - Mean_BP r) ++ " AD")%string) /\
  (forall raw, raw_Mean_BP raw = 0%Z -> clean_row raw = None).
Proof.
  apply In_filter_map in Hin as (raw & Hraw & Hc).
  pose proof (clean_row_Some raw r Hc) as (Hp & Hi & Hb & Ha & _).
  assert (Hnz : raw_Mean_BP raw <> 0%Z).
  { unfold passes_shared_filters in Hp.
    repeat (apply andb_true_iff in Hp as [Hp ?]).
    apply negb_true_iff, Z.eqb_neq in Hp. exact Hp. }
  split; [exists raw; auto|].
  split; [congruence|].
  rewrite Ha, Hb. unfold Age_of.
  split; [|split].
  - intros H. destruct (Z.leb_spec 1950 (raw_Mean_BP raw)); [reflexivity | lia].
  - intros H. destruct (Z.leb_spec 1950 (raw_Mean_BP raw)); [lia | reflexivity].
  - intros raw0 H0. unfold clean_row. now rewrite H0.
Qed.

Lemma era_label_derivation_witness :
  In bronze_age_row (annotations [bronze_age; unknown_mt]) /\
  Age bronze_age_row = "1551 BC".
Proof.
  assert (H : In bronze_age_row (annotations [bronze_age; unknown_mt]))
    by (vm_compute; left; reflexivity).
  split; [exact H|].
  refine (proj1 (proj2 (proj2 (era_label_derivation _ _ H))) _).
  vm_compute. discriminate.
Defined.

(** ** Era bins *)

(** With [x] placed between two edges, every test [b <? x] is settled. *)
Ltac settle_bins x :=
  unfold BP_range_of, cut, searchsorted_left, new_bp_ranges; cbn [filter];
  repeat match goal with
         | |- context [(?b <? x)%Z] =>
             first [ rewrite (proj2 (Z.ltb_lt b x)) by lia
                   | rewrite (proj2 (Z.ltb_ge b x)) by lia ]
         end;
  cbn.

(** Where an age lies among the eleven edges. *)
Lemma age_position (x : Z) :
  (x <= 1 \/ 1 < x <= 1000 \/ 1000 < x <= 2000 \/ 2000 < x <= 3000 \/
   3000 < x <= 4000 \/ 4000 < x <= 5000 \/ 5000 < x <= 6000 \/
   6000 < x <= 7000 \/ 7000 < x <= 8000 \/ 8000 < x <= 11000 \/
   11000 < x <= 44500 \/ 44500 < x)%Z.
Proof. lia. Qed.

(** The table of the bins: each is open on the left and closed on the
    right, and nothing is binned below or at 1 or above 44500. *)
Lemma BP_range_table (x : Z) :
  ((x <= 1)%Z /\ BP_range_of x = None) \/
  ((1 < x <= 1000)%Z /\ BP_range_of x = Some "1-1000") \/
  ((1000 < x <= 2000)%Z /\ BP_range_of x = Some "1001-2000") \/
  ((2000 < x <= 3000)%Z /\ BP_range_of x = Some "2001-3000") \/
  ((3000 < x <= 4000)%Z /\ BP_range_of x = Some "3001-4000") \/
  ((4000 < x <= 5000)%Z /\ BP_range_of x = Some "4001-5000") \/
  ((5000 < x <= 6000)%Z /\ BP_range_of x = Some "5001-6000") \/
  ((6000 < x <= 7000)%Z /\ BP_range_of x = Some "6001-7000") \/
  ((7000 < x <= 8000)%Z /\ BP_range_of x = Some "7001-8000") \/
  ((8000 < x <= 11000)%Z /\ BP_range_of x = Some "8001-11000") \/
  ((11000 < x <= 44500)%Z /\ BP_range_of x = Some "11001-44500") \/
  ((44500 < x)%Z /\ BP_range_of x = None).
Proof.
  pose proof (age_position x) as H.
  repeat (destruct H as [H|H]);
    [ left | do 1 right; left | do 2 right; left | do 3 right; left
    | do 4 right; left | do 5 right; left | do 6 right; left
    | do 7 right; left | do 8 right; left | do 9 right; left
    | do 10 right; left | do 11 right ];
    (split; [exact H | settle_bins x; reflexivity]).
Qed.

Ltac by_table x :=
  let H := fresh "Hbin" in
  pose proof (BP_range_table x) as H;
  repeat (destruct H as [H|H]);
  destruct H as [? H]; rewrite H.

Lemma BP_range_unbinned (x : Z) :
  BP_range_of x = None <-> (x <= 1 \/ 44500 < x)%Z.
Proof.
  by_table x; split; intros Hx; try discriminate; try reflexivity;
    try (now left); try (now right); lia.
Qed.

Lemma BP_range_label (x : Z) (s : string) :
  BP_range_of x = Some s -> In s bp_labels.
Proof.
  by_table x; intros Hx; try discriminate; injection Hx as <-; simpl; tauto.
Qed.

(** C3: the age 1 gets no bin, although the first bin is labelled
    ["1-1000"]: [pd.cut] leaves the lowest edge out.  An age gets no bin
    exactly when it is at most 1 or above 44500; the ages 2 to 44500 get the
    bin whose bounds enclose them. *)
Theorem BP_range_at_age_one :
  BP_range_of 1 = None /\
  (forall x, BP_range_of x = None <-> (x <= 1 \/ 44500 < x)%Z) /\
  BP_range_of 2 = Some "1-1000" /\ BP_range_of 1000 = Some "1-1000" /\
  BP_range_of 1001 = Some "1001-2000" /\
  BP_range_of 44500 = Some "11001-44500" /\ BP_range_of 44501 = None.
Proof.
  split; [reflexivity|].
  split; [exact BP_range_unbinned|].
  repeat split; reflexivity.
Qed.

(** ** The two lineage tables *)

Lemma NoDup_map_inj {A B : Type} (f : A -> B) (l : list A) (a b : A) :
  NoDup (map f l) -> In a l -> In b l -> f a = f b -> a = b.
Proof.
  induction l as [|c rest IH]; simpl; [tauto|].
  intros Hnd Ha Hb Hf. inversion Hnd as [|? ? Hnot Hrest]; subst.
  destruct Ha as [->|Ha], Hb as [->|Hb]; auto.
  - exfalso. apply Hnot. rewrite Hf. now apply in_map.
  - exfalso. apply Hnot. rewrite <- Hf. now apply in_map.
Qed.

Lemma code_of_clean (l : lineage) (raw : raw_row) (r : row) :
  clean_row raw = Some r -> code_of l r = cleanup (astype_str (raw_code l raw)).
Proof.
  intros H. apply clean_row_Some in H as (_ & _ & _ & _ & Hy & Hm).
  now destruct l.
Qed.

(** C1, as the script has it: a sheet row reaches the table of a lineage
    exactly when it passes the shared filters, which test the codes of both
    lineages, and its own cleaned code is not the unknown code [".."].  The
    sheet index is without repeats. *)
Theorem lineage_table_membership (l : lineage) (sheet : list raw_row) (raw : raw_row)
    (Hidx : NoDup (map raw_idx sheet)) (Hin : In raw sheet) :
  appears l sheet raw <->
  passes_shared_filters raw = true /\
  is_unknown (cleanup (astype_str (raw_code l raw))) = false.
Proof.
  unfold appears. split.
  - intros (x & Hx & Hi).
    apply In_lineage_table in Hx as (raw' & r & Hraw' & Hc & Hu & ->).
    pose proof (clean_row_Some raw' r Hc) as (Hp & Hir & _).
    assert (raw' = raw) as ->.
    { apply (NoDup_map_inj raw_idx sheet); auto. simpl in Hi. congruence. }
    split; [exact Hp|]. now rewrite <- (code_of_clean l raw r Hc).
  - intros [Hp Hu]. destruct (clean_row_kept raw Hp) as [r Hc].
    exists (view l r). split.
    + apply In_lineage_table. exists raw, r. repeat split; auto.
      now rewrite (code_of_clean l raw r Hc).
    + simpl. now apply clean_row_Some in Hc as (_ & Hi & _).
Qed.

Lemma lineage_table_membership_witness :
  appears Y [bronze_age; unknown_mt] unknown_mt /\
  ~ appears mt [bronze_age; unknown_mt] unknown_mt.
Proof.
  assert (Hidx : NoDup (map raw_idx [bronze_age; unknown_mt])).
  { repeat constructor; simpl; [intros [H|[]]; discriminate H | tauto]. }
  assert (Hin : In unknown_mt [bronze_age; unknown_mt])
    by (right; left; reflexivity).
  split.
  - apply (lineage_table_membership Y _ _ Hidx Hin). split; reflexivity.
  - intros H. apply (lineage_table_membership mt _ _ Hidx Hin) in H.
    destruct H as [_ H]. vm_compute in H. discriminate H.
Defined.

(** C1 as stated fails: a row with a usable Y code and the mtDNA
    code ["n/a"] passes every test on the row and on its Y code, and is not
    in the Y table. *)
Lemma sibling_placeholder_excludes :
  In no_mt_call [no_mt_call] /\
  raw_Mean_BP no_mt_call <> 0%Z /\
  has_coordinates no_mt_call = true /\
  code_usable (raw_code Y no_mt_call) = true /\
  is_unknown (cleanup (astype_str (raw_code Y no_mt_call))) = false /\
  contains_placeholder (astype_str (raw_code mt no_mt_call)) = true /\
  ~ appears Y [no_mt_call] no_mt_call.
Proof.
  repeat split; try reflexivity.
  - now left.
  - discriminate.
  - intros (x & Hx & _). vm_compute in Hx. exact Hx.
Qed.

(** ** The summary of one cluster *)

Lemma label_eqb_eq (a b : option string) : label_eqb a b = true <-> a = b.
Proof.
  destruct a as [s|], b as [t|]; simpl; try (split; [discriminate | congruence]).
  - rewrite String.eqb_eq. split; congruence.
  - tauto.
Qed.

Lemma cell_eqb_eq (a b : cell) : cell_eqb a b = true <-> a = b.
Proof.
  destruct a as [s|], b as [t|]; simpl; try (split; [discriminate | congruence]).
  - rewrite String.eqb_eq. split; congruence.
  - tauto.
Qed.

Lemma coord_eqb_eq (a b : coord) : coord_eqb a b = true <-> a = b.
Proof.
  destruct a as [a1 a2], b as [b1 b2]. unfold coord_eqb. simpl.
  rewrite andb_true_iff, !Z.eqb_eq. split; [intros [-> ->]; reflexivity|].
  intros H. injection H as -> ->. auto.
Qed.

Section Unique.

Context {A : Type} (eqb : A -> A -> bool).
Hypothesis eqb_eq : forall a b, eqb a b = true <-> a = b.

Lemma In_unique (l : list A) (x : A) : In x (unique eqb l) <-> In x l.
Proof.
  induction l as [|a rest IH]; simpl; [tauto|].
  rewrite filter_In, IH, negb_true_iff. split.
  - intros [H|[H _]]; auto.
  - intros [H|H]; auto.
    destruct (eqb a x) eqn:E; [left; now apply eqb_eq | right; auto].
Qed.

Lemma NoDup_unique (l : list A) : NoDup (unique eqb l).
Proof.
  induction l as [|a rest IH]; simpl; constructor.
  - rewrite filter_In, negb_true_iff. intros [_ H].
    assert (E : eqb a a = true) by now apply eqb_eq.
    congruence.
  - now apply NoDup_filter.
Qed.

Lemma unique_nonempty (l : list A) : l <> [] -> unique eqb l <> [].
Proof. destruct l; simpl; [tauto | discriminate]. Qed.

End Unique.

Lemma keyed_label (s : string) :
  In s bp_labels ->
  exists k a b, keyed (Some s) = Ok (k, s) /\ PyStr.split "-" s = [a; b].
Proof.
  intros H. simpl in H.
  repeat (destruct H as [<-|H]; [do 3 eexists; split; reflexivity|]).
  contradiction.
Qed.

Lemma mapM_keyed_binned (values : list (option string)) :
  (forall v, In v values -> exists s, v = Some s /\ In s bp_labels) ->
  exists pairs, mapM keyed values = Ok pairs /\ length pairs = length values /\
                forall p, In p pairs -> In (snd p) bp_labels.
Proof.
  induction values as [|v rest IH]; intros H.
  - exists []. simpl. repeat split; tauto.
  - destruct (H v (or_introl eq_refl)) as (s & -> & Hs).
    destruct (keyed_label s Hs) as (k & a & b & Hk & _).
    destruct IH as (pairs & Hm & Hl & Hp); [intros; apply H; now right|].
    exists ((k, s) :: pairs). cbn [mapM]. rewrite Hk. cbn [bind]. rewrite Hm.
    cbn [bind length]. repeat split; [congruence|].
    intros p [<-|Hin]; [exact Hs | now apply Hp].
Qed.

Lemma mapM_keyed_nan (values : list (option string)) :
  (forall v, In v values -> is_bin_value v) ->
  In None values ->
  mapM keyed values = Raise AttributeError.
Proof.
  induction values as [|v rest IH]; intros H Hnone; [destruct Hnone|].
  destruct (H v (or_introl eq_refl)) as [->|(s & -> & Hs)]; [reflexivity|].
  destruct (keyed_label s Hs) as (k & a & b & Hk & _).
  cbn [mapM]. rewrite Hk. cbn [bind].
  rewrite IH; [reflexivity | intros; apply H; now right |].
  destruct Hnone as [Hnone|Hnone]; [discriminate | exact Hnone].
Qed.

Lemma In_insert_by_key (x p : Z * string) (l : list (Z * string)) :
  In p (insert_by_key x l) <-> p = x \/ In p l.
Proof.
  induction l as [|y rest IH]; simpl.
  - split; intros [H|H]; auto.
  - destruct (fst x <=? fst y)%Z; simpl; [split; intros [H|H]; auto|].
    rewrite IH. tauto.
Qed.

Lemma length_insert_by_key (x : Z * string) (l : list (Z * string)) :
  length (insert_by_key x l) = S (length l).
Proof.
  induction l as [|y rest IH]; simpl; [reflexivity|].
  destruct (fst x <=? fst y)%Z; simpl; congruence.
Qed.

Lemma In_sorted (pairs : list (Z * string)) (p : Z * string) :
  In p (fold_right insert_by_key [] pairs) <-> In p pairs.
Proof.
  induction pairs as [|x rest IH]; simpl; [tauto|].
  rewrite In_insert_by_key, IH. split; intros [H|H]; auto.
Qed.

Lemma length_sorted (pairs : list (Z * string)) :
  length (fold_right insert_by_key [] pairs) = length pairs.
Proof.
  induction pairs as [|x rest IH]; simpl; [reflexivity|].
  now rewrite length_insert_by_key, IH.
Qed.

Lemma index_last {A : Type} (l : list A) :
  l <> [] -> exists a, index l (length l - 1) = Ok a /\ In a l.
Proof.
  intros H. unfold index.
  destruct (nth_error l (length l - 1)) as [a|] eqn:E.
  - exists a. split; [reflexivity | eapply nth_error_In; eauto].
  - apply nth_error_None in E. destruct l; [tauto | simpl in E; lia].
Qed.

(** The merge of the era bins of a cluster with no members fails on the
    first index. *)
Lemma cluster_range_of_nil : cluster_range_of [] = Raise IndexError.
Proof. reflexivity. Qed.

(** The merge works on a cluster with members that are all binned. *)
Lemma cluster_range_defined (subset : list lineage_row) :
  subset <> [] ->
  (forall r, In r subset -> exists s, BP_range r = Some s /\ In s bp_labels) ->
  exists v, cluster_range_of subset = Ok v.
Proof.
  intros Hne Hbin. unfold cluster_range_of, sorted_by_key.
  set (values := unique label_eqb (map BP_range subset)).
  destruct (mapM_keyed_binned values) as (pairs & Hm & Hl & Hp).
  { intros v Hv. apply (proj1 (In_unique label_eqb label_eqb_eq _ _)) in Hv.
    apply in_map_iff in Hv as (r & <- & Hr). now apply Hbin. }
  rewrite Hm. cbn [bind].
  set (bp_ranges := map snd (fold_right insert_by_key [] pairs)).
  assert (Hlab : forall s, In s bp_ranges -> In s bp_labels).
  { intros s Hs. apply in_map_iff in Hs as (p & <- & Hin).
    apply (proj1 (In_sorted _ _)) in Hin. now apply Hp. }
  assert (Hnil : bp_ranges <> []).
  { intros E. apply (f_equal (@length _)) in E. unfold bp_ranges in E.
    rewrite length_map, length_sorted, Hl in E. simpl in E.
    apply length_zero_iff_nil in E. revert E.
    apply unique_nonempty. destruct subset; [tauto | discriminate]. }
  destruct (index_last bp_ranges Hnil) as (last & Hlast & Hin_last).
  destruct bp_ranges as [|first more] eqn:E; [tauto|].
  cbn [index nth_error bind].
  destruct (keyed_label first) as (k1 & a1 & b1 & _ & Hs1);
    [apply Hlab; now left|].
  destruct (keyed_label last (Hlab last Hin_last)) as (k2 & a2 & b2 & _ & Hs2).
  rewrite Hs1. cbn [index nth_error bind].
  rewrite Hlast. cbn [bind]. rewrite Hs2. cbn [index nth_error bind].
  destruct (String.eqb a1 b2); eexists; reflexivity.
Qed.

(** The merge fails on the sort key when a member has no bin. *)
Lemma cluster_range_unbinned (subset : list lineage_row) :
  (forall r, In r subset -> is_bin_value (BP_range r)) ->
  (exists r, In r subset /\ BP_range r = None) ->
  cluster_range_of subset = Raise AttributeError.
Proof.
  intros Hval (r & Hr & Hnone). unfold cluster_range_of, sorted_by_key.
  rewrite mapM_keyed_nan; [reflexivity | |].
  - intros v Hv. apply (proj1 (In_unique label_eqb label_eqb_eq _ _)) in Hv.
    apply in_map_iff in Hv as (r' & <- & Hr'). now apply Hval.
  - apply (In_unique label_eqb label_eqb_eq). rewrite <- Hnone. now apply in_map.
Qed.

Lemma lineage_table_bin (l : lineage) (sheet : list raw_row) (x : lineage_row) :
  In x (lineage_table l sheet) -> BP_range x = BP_range_of (l_Mean_BP x).
Proof.
  intros H. apply In_lineage_table in H as (raw & r & _ & _ & _ & ->).
  reflexivity.
Qed.

Lemma BP_range_of_value (x : Z) : is_bin_value (BP_range_of x).
Proof.
  unfold is_bin_value. destruct (BP_range_of x) as [s|] eqn:E; [right | now left].
  exists s. split; [reflexivity | now apply (BP_range_label x)].
Qed.

Lemma subset_of_In (data : list lineage_row) (points : list coord) (r : lineage_row) :
  In r (subset_of data points) -> In r data.
Proof. unfold subset_of. rewrite filter_In. tauto. Qed.

Lemma mapM_Ok_In {A B : Type} (f : A -> result B) (l : list A) (bs : list B) :
  mapM f l = Ok bs -> forall a, In a l -> exists b, f a = Ok b.
Proof.
  revert bs. induction l as [|a0 rest IH]; intros bs H a Hin; [destruct Hin|].
  cbn [mapM] in H. destruct (f a0) as [b0|e] eqn:E0; [|discriminate H].
  cbn [bind] in H. destruct (mapM f rest) as [bs'|e] eqn:E1; [|discriminate H].
  destruct Hin as [<-|Hin]; [eauto | eapply IH; eauto].
Qed.

(** C10: when a member of a cluster has an age outside (1, 44500], its
    [BP range] is NaN, the sort key of the era merge raises
    [AttributeError] on it, and the loop makes no marker for the cluster;
    the loop over the clusters ends there. *)
Theorem unbinned_member_breaks_merge (centroid : Type) (l : lineage)
    (sheet : list raw_row) (labelled : list (coord * nat))
    (centers : list centroid) (cluster_id : nat) (r : lineage_row)
    (Hin : In r (subset_of (lineage_table l sheet) (cluster_points labelled cluster_id)))
    (Hage : ~ (1 < l_Mean_BP r <= 44500)%Z) :
  BP_range r = None /\
  cluster_range_of (subset_of (lineage_table l sheet) (cluster_points labelled cluster_id))
    = Raise AttributeError /\
  (forall m, cluster_marker centroid (lineage_table l sheet) labelled centers cluster_id
             <> Ok m) /\
  (forall n ms, cluster_id < n ->
                markers centroid (lineage_table l sheet) labelled centers n <> Ok ms).
Proof.
  set (data := lineage_table l sheet) in *.
  set (subset := subset_of data (cluster_points labelled cluster_id)) in *.
  assert (Hnone : BP_range r = None).
  { rewrite (lineage_table_bin l sheet r) by (eapply subset_of_In; eauto).
    apply BP_range_unbinned. lia. }
  assert (Hrange : cluster_range_of subset = Raise AttributeError).
  { apply cluster_range_unbinned; [|eauto].
    intros r' Hr'. rewrite (lineage_table_bin l sheet r').
    - apply BP_range_of_value.
    - eapply subset_of_In; eauto. }
  assert (Hmark : forall m, cluster_marker centroid data labelled centers cluster_id <> Ok m).
  { intros m. unfold cluster_marker.
    destruct (index centers cluster_id) as [c|e]; cbn [bind]; [|discriminate].
    fold subset. unfold summarize. rewrite Hrange. discriminate. }
  repeat split; auto.
  intros n ms Hlt Hms. unfold markers in Hms.
  destruct (mapM_Ok_In _ _ _ Hms cluster_id) as [m Hm].
  - apply in_seq. lia.
  - exact (Hmark m Hm).
Qed.

Lemma unbinned_member_breaks_merge_witness :
  BP_range first_year_Y = None /\
  cluster_range_of (subset_of (lineage_table Y [first_year]) (cluster_points [((4190, 1250)%Z, 0)] 0))
    = Raise AttributeError.
Proof.
  assert (H : In first_year_Y
                (subset_of (lineage_table Y [first_year])
                           (cluster_points [((4190, 1250)%Z, 0)] 0)))
    by (vm_compute; left; reflexivity).
  assert (Hage : ~ (1 < l_Mean_BP first_year_Y <= 44500)%Z) by (simpl; lia).
  pose proof (unbinned_member_breaks_merge unit Y [first_year]
                [((4190, 1250)%Z, 0)] [tt] 0 first_year_Y H Hage) as (H1 & H2 & _).
  split; [exact H1 | exact H2].
Defined.

Lemma mapM_as_str (cs : list cell) :
  (forall c, In c cs -> c <> NaN) -> exists names, mapM as_str cs = Ok names.
Proof.
  induction cs as [|c rest IH]; intros H; [eexists; reflexivity|].
  destruct IH as [names Hn]; [intros; apply H; now right|].
  destruct c as [s|]; [|exfalso; apply (H NaN); [now left | reflexivity]].
  exists (s :: names). cbn [mapM as_str bind]. now rewrite Hn.
Qed.

Lemma cluster_countries_defined (subset : list lineage_row) :
  subset <> [] ->
  (forall r, In r subset -> l_Country r <> NaN) ->
  exists c, cluster_countries_of subset = Ok c.
Proof.
  intros Hne Hc. unfold cluster_countries_of.
  set (countries := unique cell_eqb (map l_Country subset)).
  destruct (length countries <? 2).
  - assert (Hn : countries <> []).
    { apply unique_nonempty. destruct subset; [tauto | discriminate]. }
    destruct countries as [|c rest]; [tauto|]. exists c. reflexivity.
  - destruct (mapM_as_str countries) as [names Hn].
    + intros c Hin. apply (proj1 (In_unique cell_eqb cell_eqb_eq _ _)) in Hin.
      apply in_map_iff in Hin as (r & <- & Hr). now apply Hc.
    + rewrite Hn. eexists. reflexivity.
Qed.

(** C2, as the script has it: the summary of a cluster is defined when the
    cluster has a member, every member has an age in (1, 44500] and no
    member lacks a country; its count is the number of members.  For a
    cluster without members there is no fallback: the first index into the
    empty list of era bins raises [IndexError]. *)
Theorem summary_of_populated_cluster (l : lineage) (sheet : list raw_row)
    (points : list coord)
    (Hmember : subset_of (lineage_table l sheet) points <> [])
    (Hage : forall r, In r (subset_of (lineage_table l sheet) points) ->
                      (1 < l_Mean_BP r <= 44500)%Z)
    (Hcountry : forall r, In r (subset_of (lineage_table l sheet) points) ->
                          l_Country r <> NaN) :
  (exists s bp_ranges,
      summarize (subset_of (lineage_table l sheet) points) = Ok (s, bp_ranges) /\
      total_indivs s = length (subset_of (lineage_table l sheet) points)) /\
  summarize [] = Raise IndexError.
Proof.
  split; [|reflexivity].
  set (subset := subset_of (lineage_table l sheet) points) in *.
  destruct (cluster_range_defined subset Hmember) as [rng Hr].
  { intros r Hin. pose proof (Hage r Hin) as Ha.
    rewrite (lineage_table_bin l sheet r) by (eapply subset_of_In; eauto).
    destruct (BP_range_of (l_Mean_BP r)) as [s|] eqn:E.
    - exists s. split; [reflexivity | now apply (BP_range_label (l_Mean_BP r))].
    - apply BP_range_unbinned in E. lia. }
  destruct (cluster_countries_defined subset Hmember Hcountry) as [c Hc].
  unfold summarize. rewrite Hr. cbn [bind]. rewrite Hc. cbn [bind].
  do 2 eexists. split; reflexivity.
Qed.

Lemma summary_of_populated_cluster_witness :
  exists s bp_ranges,
    summarize (subset_of (lineage_table Y [bronze_age; unknown_mt]) [(5105, 1374)%Z])
      = Ok (s, bp_ranges) /\
    total_indivs s
      = length (subset_of (lineage_table Y [bronze_age; unknown_mt]) [(5105, 1374)%Z]).
Proof.
  assert (Hmember : subset_of (lineage_table Y [bronze_age; unknown_mt])
                              [(5105, 1374)%Z] <> [])
    by (vm_compute; discriminate).
  assert (Hage : forall r,
             In r (subset_of (lineage_table Y [bronze_age; unknown_mt]) [(5105, 1374)%Z]) ->
             (1 < l_Mean_BP r <= 44500)%Z).
  { intros r H. vm_compute in H.
    repeat (destruct H as [<-|H]; [simpl; lia|]). destruct H. }
  assert (Hcountry : forall r,
             In r (subset_of (lineage_table Y [bronze_age; unknown_mt]) [(5105, 1374)%Z]) ->
             l_Country r <> NaN).
  { intros r H. vm_compute in H.
    repeat (destruct H as [<-|H]; [simpl; discriminate|]). destruct H. }
  exact (proj1 (summary_of_populated_cluster Y [bronze_age; unknown_mt]
                  [(5105, 1374)%Z] Hmember Hage Hcountry)).
Defined.

(** C2 as stated fails: a cluster label that no coordinate carries
    gives a cluster without members, and the pass of the loop for it raises
    [IndexError]. *)
Lemma empty_cluster_raises :
  cluster_points [((5105, 1374)%Z, 0)] 1 = [] /\
  cluster_marker unit (lineage_table Y [bronze_age]) [((5105, 1374)%Z, 0)] [tt; tt] 1
    = Raise IndexError.
Proof. split; reflexivity. Qed.


(** ** Clusters and their counts *)

Lemma isin_In (c : coord) (points : list coord) : isin c points = true <-> In c points.
Proof.
  unfold isin. rewrite existsb_exists. split.
  - intros (d & Hd & E). apply coord_eqb_eq in E. now subst.
  - intros H. exists c. split; [exact H | now apply coord_eqb_eq].
Qed.

Lemma In_cluster_points (labelled : list (coord * nat)) (cluster_id : nat) (c : coord) :
  In c (cluster_points labelled cluster_id) <-> In (c, cluster_id) labelled.
Proof.
  unfold cluster_points. rewrite in_map_iff. split.
  - intros ([c' lab] & <- & H). apply filter_In in H as [H E].
    simpl in *. apply Nat.eqb_eq in E. now subst.
  - intros H. exists (c, cluster_id). split; [reflexivity|].
    apply filter_In. split; [exact H | apply Nat.eqb_refl].
Qed.

(** The count of the loop is the count of the specification. *)
Lemma total_is_records_in_cluster (data : list lineage_row) (points : list coord) :
  length (subset_of data points) = records_in_cluster data points.
Proof.
  unfold subset_of, records_in_cluster. f_equal. apply filter_ext.
  intros r. destruct (in_dec coord_eq_dec (coord_of r) points) as [H|H].
  - now apply isin_In.
  - destruct (isin (coord_of r) points) eqn:E; [|reflexivity].
    apply isin_In in E. contradiction.
Qed.

Lemma map_fst_combine {A B : Type} (l : list A) (l' : list B) :
  length l' = length l -> map fst (combine l l') = l.
Proof.
  revert l'. induction l as [|a rest IH]; intros [|b rest'] H; simpl in *;
    try discriminate; [reflexivity|].
  f_equal. apply IH. lia.
Qed.

Lemma In_combine_snd {A B : Type} (l : list A) (l' : list B) (P : B -> Prop) (p : A * B) :
  Forall P l' -> In p (combine l l') -> P (snd p).
Proof.
  intros HP Hin. destruct p as [a b]. apply in_combine_r in Hin.
  rewrite Forall_forall in HP. now apply HP.
Qed.

(** With coordinates that do not repeat, a coordinate has one label. *)
Lemma label_unique (labelled : list (coord * nat)) (c : coord) (lab lab' : nat) :
  NoDup (map fst labelled) ->
  In (c, lab) labelled -> In (c, lab') labelled -> lab = lab'.
Proof.
  intros Hnd H H'.
  assert (E : (c, lab) = (c, lab'))
    by (apply (NoDup_map_inj fst labelled); auto).
  congruence.
Qed.

Lemma list_sum_indicator (lab start n : nat) :
  list_sum (map (fun c => if c =? lab then 1 else 0) (seq start n)) =
  if (start <=? lab) && (lab <? start + n) then 1 else 0.
Proof.
  revert start. induction n as [|n IH]; intros start; simpl.
  - destruct (Nat.leb_spec start lab), (Nat.ltb_spec lab (start + 0)); simpl; lia.
  - rewrite IH.
    destruct (Nat.eqb_spec start lab), (Nat.leb_spec start lab),
      (Nat.leb_spec (S start) lab), (Nat.ltb_spec lab (S start + n)),
      (Nat.ltb_spec lab (start + S n)); simpl; lia.
Qed.

Lemma list_sum_map_add {A : Type} (f g : A -> nat) (l : list A) :
  list_sum (map (fun a => f a + g a) l) = list_sum (map f l) + list_sum (map g l).
Proof. induction l as [|a rest IH]; simpl; lia. Qed.

(** Each row of the table is counted in one cluster and in one only. *)
Lemma totals_sum (data : list lineage_row) (labelled : list (coord * nat)) (k : nat) :
  NoDup (map fst labelled) ->
  (forall p, In p labelled -> snd p < k) ->
  (forall r, In r data -> In (coord_of r) (map fst labelled)) ->
  list_sum (map (fun c => length (subset_of data (cluster_points labelled c))) (seq 0 k))
  = length data.
Proof.
  intros Hnd Hlt. induction data as [|r rest IH]; intros Hcov.
  - simpl. induction (seq 0 k); simpl; auto.
  - assert (Hin : In (coord_of r) (map fst labelled)) by (apply Hcov; now left).
    apply in_map_iff in Hin as ([c lab] & Hc & Hp). simpl in Hc. subst c.
    rewrite (map_ext
               (fun c => length (subset_of (r :: rest) (cluster_points labelled c)))
               (fun c => (if c =? lab then 1 else 0)
                         + length (subset_of rest (cluster_points labelled c)))).
    + rewrite list_sum_map_add, IH by (intros; apply Hcov; now right).
      rewrite list_sum_indicator. simpl.
      pose proof (Hlt _ Hp) as Hk. simpl in Hk.
      destruct (Nat.ltb_spec lab k); simpl; lia.
    + intros c. unfold subset_of. cbn [filter].
      destruct (isin (coord_of r) (cluster_points labelled c)) eqn:E.
      * apply isin_In, In_cluster_points in E.
        rewrite (label_unique labelled (coord_of r) c lab Hnd E Hp).
        now rewrite Nat.eqb_refl.
      * destruct (Nat.eqb_spec c lab) as [->|]; [|reflexivity].
        apply In_cluster_points, isin_In in Hp. congruence.
Qed.

Lemma mapM_map {A B C : Type} (f : A -> result B) (g : B -> C) (h : A -> C)
    (l : list A) (bs : list B) :
  (forall a b, f a = Ok b -> g b = h a) ->
  mapM f l = Ok bs -> map g bs = map h l.
Proof.
  intros Hgh. revert bs. induction l as [|a rest IH]; intros bs H.
  - injection H as <-. reflexivity.
  - cbn [mapM] in H. destruct (f a) as [b|e] eqn:E; [|discriminate H].
    cbn [bind] in H. destruct (mapM f rest) as [bs'|e] eqn:E'; [|discriminate H].
    injection H as <-. simpl. f_equal; [now apply Hgh | now apply IH].
Qed.

(** A marker shows the number of rows of its cluster. *)
Lemma cluster_marker_total (centroid : Type) (data : list lineage_row)
    (labelled : list (coord * nat)) (centers : list centroid) (cluster_id : nat)
    (m : marker centroid) :
  cluster_marker centroid data labelled centers cluster_id = Ok m ->
  total_indivs (legend m) = length (subset_of data (cluster_points labelled cluster_id)).
Proof.
  unfold cluster_marker, summarize.
  destruct (index centers cluster_id) as [c|e]; cbn [bind]; [|discriminate].
  destruct (cluster_range_of _) as [rng|e]; cbn [bind]; [|discriminate].
  destruct (cluster_countries_of _) as [cs|e]; cbn [bind]; [|discriminate].
  intros H. injection H as <-. reflexivity.
Qed.

(** The stand-in keeps the contract of a fitted model. *)
Lemma round_robin_fits (k : nat) (X : list coord) :
  1 <= k <= length X -> round_robin_fit k X <> None.
Proof.
  intros [H1 H2]. unfold round_robin_fit.
  destruct (Nat.leb_spec 1 k), (Nat.leb_spec k (length X)); simpl; try lia.
  discriminate.
Qed.

Lemma round_robin_shape (k : nat) (X : list coord) (labels : list nat)
    (centers : list unit) :
  round_robin_fit k X = Some (labels, centers) ->
  length labels = length X /\ length centers = k /\
  Forall (fun lab => lab < k) labels.
Proof.
  unfold round_robin_fit.
  destruct (Nat.leb_spec 1 k); simpl; [|discriminate].
  destruct (k <=? length X); [|discriminate].
  intros E. injection E as <- <-.
  rewrite length_map, length_seq, repeat_length. repeat split.
  apply Forall_forall. intros lab Hin.
  apply in_map_iff in Hin as (i & <- & _). apply Nat.mod_upper_bound. lia.
Qed.

Section Contract.

Variable centroid : Type.
Variable KMeans_fit : nat -> list coord -> option (list nat * list centroid).

(** What scikit-learn documents for [KMeans]: [fit] accepts any number of
    clusters from 1 to the number of rows; [labels_] has one label below
    [n_clusters] per row and [cluster_centers_] has [n_clusters] rows. *)
Hypothesis KMeans_fits :
  forall k X, 1 <= k <= length X -> KMeans_fit k X <> None.
Hypothesis KMeans_shape :
  forall k X labels centers,
    KMeans_fit k X = Some (labels, centers) ->
    length labels = length X /\ length centers = k /\
    Forall (fun lab => lab < k) labels.

(** C6: for a cluster number from 5 to 500 and a table with at least that
    many distinct coordinates, the fit gives as many centres as clusters, the
    label column fits the table of distinct coordinates, each cluster of the
    loop has its centre, and each distinct coordinate is in the points of
    one cluster and of one only. *)
Theorem clustering_complete (l : lineage) (sheet : list raw_row) (k : nat)
    (Hk : 5 <= k <= 500)
    (Hpoints : k <= length (lat_long_locations (lineage_table l sheet))) :
  exists labels centers labelled,
    fit centroid KMeans_fit k (lat_long_locations (lineage_table l sheet))
      = Ok (labels, centers) /\
    add_cluster_labels (lat_long_locations (lineage_table l sheet)) labels
      = Ok labelled /\
    length centers = k /\
    (forall cluster_id, cluster_id < k -> exists c, index centers cluster_id = Ok c) /\
    map fst labelled = lat_long_locations (lineage_table l sheet) /\
    NoDup (lat_long_locations (lineage_table l sheet)) /\
    (forall x, In x (lat_long_locations (lineage_table l sheet)) ->
       exists lab, lab < k /\ In (x, lab) labelled /\
                   forall c, In x (cluster_points labelled c) <-> c = lab).
Proof.
  set (locs := lat_long_locations (lineage_table l sheet)) in *.
  assert (Hnd : NoDup locs) by apply (NoDup_unique coord_eqb coord_eqb_eq).
  destruct (KMeans_fit k locs) as [[labels centers]|] eqn:E;
    [|exfalso; apply (KMeans_fits k locs); [lia | exact E]].
  destruct (KMeans_shape _ _ _ _ E) as (Hl & Hc & Hr).
  assert (Hfst : map fst (combine locs labels) = locs) by now apply map_fst_combine.
  exists labels, centers, (combine locs labels).
  split; [unfold fit; now rewrite E|].
  split; [unfold add_cluster_labels; now rewrite Hl, Nat.eqb_refl|].
  split; [exact Hc|].
  split.
  { intros cluster_id Hlt. unfold index.
    destruct (nth_error centers cluster_id) as [c|] eqn:En; [eauto|].
    apply nth_error_None in En. lia. }
  split; [exact Hfst|].
  split; [exact Hnd|].
  intros x Hx. rewrite <- Hfst in Hx.
  apply in_map_iff in Hx as ([x' lab] & Hx' & Hp). simpl in Hx'. subst x'.
  exists lab. split; [exact (In_combine_snd _ _ _ _ Hr Hp)|].
  split; [exact Hp|].
  intros c. rewrite In_cluster_points. split.
  - intros Hc'. apply (label_unique (combine locs labels) x); auto.
    now rewrite Hfst.
  - now intros ->.
Qed.

(** C7: the count shown for a cluster is the number of rows of the table
    whose coordinates are among the points of the cluster, and the counts of
    the clusters add up to the number of rows of the table. *)
Theorem aggregation_conservation (l : lineage) (sheet : list raw_row) (k : nat)
    (labels : list nat) (centers : list centroid) (labelled : list (coord * nat))
    (Hfit : fit centroid KMeans_fit k (lat_long_locations (lineage_table l sheet))
            = Ok (labels, centers))
    (Hlab : add_cluster_labels (lat_long_locations (lineage_table l sheet)) labels
            = Ok labelled) :
  (forall c, length (subset_of (lineage_table l sheet) (cluster_points labelled c))
             = records_in_cluster (lineage_table l sheet) (cluster_points labelled c)) /\
  list_sum (map (fun c => records_in_cluster (lineage_table l sheet)
                            (cluster_points labelled c)) (seq 0 k))
    = length (lineage_table l sheet) /\
  (forall ms,
      markers centroid (lineage_table l sheet) labelled centers k = Ok ms ->
      map (fun m => total_indivs (legend m)) ms
        = map (fun c => records_in_cluster (lineage_table l sheet)
                          (cluster_points labelled c)) (seq 0 k) /\
      list_sum (map (fun m => total_indivs (legend m)) ms)
        = length (lineage_table l sheet)).
Proof.
  set (data := lineage_table l sheet) in *.
  set (locs := lat_long_locations data) in *.
  unfold fit in Hfit.
  destruct (KMeans_fit k locs) as [[labels' centers']|] eqn:E; [|discriminate Hfit].
  injection Hfit as -> ->.
  destruct (KMeans_shape _ _ _ _ E) as (Hl & Hc & Hr).
  unfold add_cluster_labels in Hlab. rewrite Hl, Nat.eqb_refl in Hlab.
  injection Hlab as <-.
  assert (Hfst : map fst (combine locs labels) = locs) by now apply map_fst_combine.
  assert (Hsum : list_sum (map (fun c => records_in_cluster data
                                  (cluster_points (combine locs labels) c)) (seq 0 k))
                 = length data).
  { rewrite <- (totals_sum data (combine locs labels) k).
    - f_equal. apply map_ext. intros c. symmetry. apply total_is_records_in_cluster.
    - rewrite Hfst. apply (NoDup_unique coord_eqb coord_eqb_eq).
    - intros p Hp. exact (In_combine_snd _ _ _ _ Hr Hp).
    - intros r Hin. rewrite Hfst. apply (In_unique coord_eqb coord_eqb_eq).
      now apply in_map. }
  split; [intros c; apply total_is_records_in_cluster|].
  split; [exact Hsum|].
  intros ms Hms.
  assert (Hmap : map (fun m => total_indivs (legend m)) ms
                 = map (fun c => records_in_cluster data
                                   (cluster_points (combine locs labels) c)) (seq 0 k)).
  { apply (mapM_map _ _ _ _ _ (fun c m Hm => eq_trans
             (cluster_marker_total centroid data _ centers c m Hm)
             (total_is_records_in_cluster data _)) Hms). }
  split; [exact Hmap | now rewrite Hmap].
Qed.

End Contract.

Lemma clustering_complete_witness :
  exists labels centers labelled,
    fit unit round_robin_fit 5 (lat_long_locations (lineage_table Y five_sites))
      = Ok (labels, centers) /\
    add_cluster_labels (lat_long_locations (lineage_table Y five_sites)) labels
      = Ok labelled /\
    length centers = 5.
Proof.
  assert (Hk : 5 <= 5 <= 500) by lia.
  assert (Hpoints : 5 <= length (lat_long_locations (lineage_table Y five_sites)))
    by (vm_compute; lia).
  destruct (clustering_complete unit round_robin_fit round_robin_fits
              round_robin_shape Y five_sites 5 Hk Hpoints)
    as (labels & centers & labelled & H1 & H2 & H3 & _).
  exists labels, centers, labelled. auto.
Defined.

Lemma aggregation_conservation_witness :
  list_sum (map (fun c => records_in_cluster (lineage_table Y five_sites)
                            (cluster_points
                               (combine (lat_long_locations (lineage_table Y five_sites))
                                        [0; 1; 2; 3; 4]) c)) (seq 0 5))
  = length (lineage_table Y five_sites).
Proof.
  assert (Hfit : fit unit round_robin_fit 5
                   (lat_long_locations (lineage_table Y five_sites))
                 = Ok ([0; 1; 2; 3; 4], [tt; tt; tt; tt; tt]))
    by (vm_compute; reflexivity).
  assert (Hlab : add_cluster_labels (lat_long_locations (lineage_table Y five_sites))
                   [0; 1; 2; 3; 4]
                 = Ok (combine (lat_long_locations (lineage_table Y five_sites))
                               [0; 1; 2; 3; 4]))
    by (vm_compute; reflexivity).
  exact (proj1 (proj2 (aggregation_conservation unit round_robin_fit
                         round_robin_shape Y five_sites 5 _ _ _ Hfit Hlab))).
Defined.

(** ** The command line *)

Module CliFacts.

Import Cli.

Example usage_ex :
  check ["haplogroup_visualization.py"; "--cluster_Y"; "200"; "--cluster_mt"; "400"; file_name]
    = Proceed 200 400 /\
  check ["haplogroup_visualization.py"; "--cluster_Y"; "3"; file_name] = Exit msg_Y /\
  check ["haplogroup_visualization.py"; "--cluster_mt"; "501"; file_name] = Exit msg_mt /\
  check ["haplogroup_visualization.py"; "--cluster_Y"; "abc"; file_name] = Exit msg_integer /\
  check ["haplogroup_visualization.py"; "--cluster_Y"; file_name] = Exit msg_integer /\
  check ["haplogroup_visualization.py"; "--cluster_Y=7"; file_name] = Proceed 7 350 /\
  check ["haplogroup_visualization.py"; "--cluster_m"; "7"; file_name] = Proceed 150 7 /\
  check ["haplogroup_visualization.py"; "--cluster"; "7"; file_name] = Exit msg_integer /\
  check ["haplogroup_visualization.py"; "--cluster_Y"; "-3"; file_name] = Exit msg_Y /\
  check ["haplogroup_visualization.py"; "-h"; file_name] = Exit msg_integer /\
  check ["haplogroup_visualization.py"; "extra"; file_name] = Exit msg_integer /\
  check ["haplogroup_visualization.py"; "--"; file_name] = Proceed 150 350 /\
  check ["haplogroup_visualization.py"; "sheet.xlsx"] = Exit msg_file /\
  check ["haplogroup_visualization.py"; "a"; "b"; "c"; "d"; "e"; file_name] = Exit msg_too_many.
Proof. repeat split; reflexivity. Qed.

(** *** The five messages *)

Lemma diagnostics_one_line :
  one_line_diagnostic msg_too_many /\ one_line_diagnostic msg_file /\
  one_line_diagnostic msg_integer /\ one_line_diagnostic msg_Y /\
  one_line_diagnostic msg_mt.
Proof.
  repeat split.
  - exists diag_too_many, "Program terminated.". repeat split; auto.
  - exists diag_file, "Program terminated". repeat split; auto.
  - exists diag_integer, "Program terminated". repeat split; auto.
  - exists diag_Y, "Program terminated.". repeat split; auto.
  - exists diag_mt, "Program terminated.". repeat split; auto.
Qed.

(** The checks end on a diagnostic or hand over two numbers in range. *)
Lemma check_cases (argv : list string) :
  (exists printed, check argv = Exit printed /\ one_line_diagnostic printed) \/
  (exists args, parse_args (tl argv) = Some args /\
                in_range (cluster_Y args) = true /\
                in_range (cluster_mt args) = true /\
                check argv = Proceed (cluster_Y args) (cluster_mt args)).
Proof.
  destruct diagnostics_one_line as (H1 & H2 & H3 & H4 & H5).
  unfold check.
  destruct (6 <? length argv); [left; eauto|].
  destruct (negb (String.eqb (last argv EmptyString) file_name)); [left; eauto|].
  destruct (parse_args (tl argv)) as [args|]; [|left; eauto].
  destruct (in_range (cluster_Y args)) eqn:EY; simpl; [|left; eauto].
  destruct (in_range (cluster_mt args)) eqn:Em; simpl; [|left; eauto].
  right. exists args. auto.
Qed.

(** *** The scan, case by case *)

Lemma consume_explicit pl ns l e s rest :
  consume pl ns ((O (Some (Cluster l)) (Some e), s) :: rest) =
  match get_value e with
  | Some v => consume pl (store l v ns) rest
  | None => None
  end.
Proof. reflexivity. Qed.

Lemma consume_value pl ns l s value rest :
  consume pl ns ((O (Some (Cluster l)) None, s) :: (A, value) :: rest) =
  match get_value value with
  | Some v => consume pl (store l v ns) rest
  | None => None
  end.
Proof. reflexivity. Qed.

Lemma consume_no_value pl ns l s c t rest :
  c <> A ->
  consume pl ns ((O (Some (Cluster l)) None, s) :: (c, t) :: rest) = None.
Proof. destruct c; [tauto | reflexivity | reflexivity]. Qed.

Lemma consume_no_action pl ns a e s rest :
  a <> Some (Cluster Y) -> a <> Some (Cluster mt) ->
  consume pl ns ((O a e, s) :: rest) = None.
Proof.
  destruct a as [[|[|]]|]; try reflexivity; intros H1 H2; congruence.
Qed.

Lemma consume_A pl ns s c t rest :
  c <> Dash ->
  consume pl ns ((A, s) :: (c, t) :: rest) =
  if pl then consume false ns ((c, t) :: rest) else None.
Proof. destruct c; [reflexivity | reflexivity | tauto]. Qed.

Lemma consume_A_Dash pl ns s t rest :
  consume pl ns ((A, s) :: (Dash, t) :: rest) =
  if pl then consume false ns rest else None.
Proof. reflexivity. Qed.

Lemma consume_Dash_A pl ns s t rest :
  consume pl ns ((Dash, s) :: (A, t) :: rest) =
  if pl then consume false ns rest else None.
Proof. reflexivity. Qed.

Lemma consume_spent ns s rest : consume false ns ((A, s) :: rest) = None.
Proof. destruct rest as [|[[| |] ?] ?]; reflexivity. Qed.

(** *** An argument after a cluster flag that is no integer *)

Lemma fatal_consume cs : fatal cs -> forall pl ns, consume pl ns cs = None.
Proof.
  intros Hf pl ns. destruct Hf as [l s c t rest Hc|s t1 t2 rest].
  - destruct c.
    + rewrite consume_value, Hc; reflexivity.
    + apply consume_no_value. discriminate.
    + apply consume_no_value. discriminate.
  - rewrite consume_Dash_A. destruct pl; [apply consume_spent | reflexivity].
Qed.

(** In front of a fatal shape nothing helps: the scan takes one argument or
    two at a time, so the statement covers a prefix and the prefix with one
    more argument in front. *)
Lemma consume_doomed core :
  fatal core ->
  forall pre, no_dash pre ->
    (forall pl ns, consume pl ns (pre ++ core) = None) /\
    (forall x, fst x <> Dash -> forall pl ns, consume pl ns (x :: pre ++ core) = None).
Proof.
  intros Hf. induction pre as [|[cy sy] pre IH]; intros Hnd.
  - split; [apply fatal_consume; exact Hf|].
    intros [c s] Hc pl ns. simpl in Hc. cbn [app].
    destruct c as [|a e|]; [| |tauto].
    + destruct Hf as [l s' c' t rest Hv|s' t1 t2 rest].
      * rewrite consume_A by discriminate.
        destruct pl; [apply fatal_consume; now constructor | reflexivity].
      * rewrite consume_A_Dash. destruct pl; [apply consume_spent | reflexivity].
    + destruct a as [[|l]|]; try reflexivity.
      destruct e as [e|].
      * rewrite consume_explicit. destruct (get_value e); [|reflexivity].
        apply fatal_consume; exact Hf.
      * destruct Hf; apply consume_no_value; discriminate.
  - inversion Hnd as [|? ? Hy Hpre]; subst. simpl in Hy.
    destruct (IH Hpre) as [IH1 IH2].
    split; [intros pl ns; apply (IH2 (cy, sy)); exact Hy|].
    intros [c s] Hc pl ns. simpl in Hc. cbn [app].
    destruct c as [|a e|]; [| |tauto].
    + rewrite consume_A by exact Hy.
      destruct pl; [apply (IH2 (cy, sy)); exact Hy | reflexivity].
    + destruct a as [[|l]|]; try reflexivity.
      destruct e as [e|].
      * rewrite consume_explicit. destruct (get_value e); [|reflexivity].
        apply (IH2 (cy, sy)); exact Hy.
      * destruct cy; [| apply consume_no_value; discriminate | tauto].
        rewrite consume_value. destruct (get_value sy); [apply IH1 | reflexivity].
Qed.

Lemma classify_cons arg rest :
  classify (arg :: rest) =
  if String.eqb arg "--" then Some ((Dash, arg) :: map (fun s => (A, s)) rest)
  else match parse_optional arg, classify rest with
       | Ambiguous, _ => None
       | _, None => None
       | IsPositional, Some cs => Some ((A, arg) :: cs)
       | IsOptional a e, Some cs => Some ((O a e, arg) :: cs)
       end.
Proof. reflexivity. Qed.

Lemma classify_head t rest cs :
  classify (t :: rest) = Some cs -> exists c cs', cs = (c, t) :: cs'.
Proof.
  rewrite classify_cons. destruct (String.eqb t "--").
  - intros H. injection H as <-. eauto.
  - destruct (parse_optional t), (classify rest); try discriminate;
      intros H; injection H as <-; eauto.
Qed.

Lemma parse_optional_flag flag :
  cluster_flag flag ->
  String.eqb flag "--" = false /\
  exists l, parse_optional flag = IsOptional (Some (Cluster l)) None.
Proof. intros [->| ->]; (split; [reflexivity | eexists; reflexivity]). Qed.

Lemma classify_doomed before flag token after :
  cluster_flag flag -> PyStr.int token = None ->
  forall cs, classify (before ++ flag :: token :: after) = Some cs ->
             exists pre core, cs = pre ++ core /\ no_dash pre /\ fatal core.
Proof.
  intros Hflag Hint. destruct (parse_optional_flag flag Hflag) as (Hdd & l & Hopt).
  induction before as [|b bs IH]; intros cs; cbn [app]; rewrite classify_cons.
  - rewrite Hdd, Hopt.
    destruct (classify (token :: after)) as [cs0|] eqn:E; [|discriminate].
    intros H. injection H as <-.
    destruct (classify_head _ _ _ E) as (c & cs' & ->).
    exists [], ((O (Some (Cluster l)) None, flag) :: (c, token) :: cs').
    repeat split; [constructor | constructor; intros _; exact Hint].
  - destruct (String.eqb b "--").
    + intros H. injection H as <-.
      exists [], ((Dash, b) :: map (fun s => (A, s)) (bs ++ flag :: token :: after)).
      repeat split; [constructor|].
      destruct bs as [|b1 [|b2 bs']]; cbn [app map]; constructor.
    + destruct (classify (bs ++ flag :: token :: after)) as [cs0|];
        [|destruct (parse_optional b); discriminate].
      destruct (IH cs0 eq_refl) as (pre & core & -> & Hnd & Hf).
      destruct (parse_optional b) as [|a e|]; [| |discriminate];
        intros H; injection H as <-.
      * exists ((A, b) :: pre), core.
        repeat split; [constructor; [discriminate | exact Hnd] | exact Hf].
      * exists ((O a e, b) :: pre), core.
        repeat split; [constructor; [discriminate | exact Hnd] | exact Hf].
Qed.

Lemma parse_args_bad_value before flag token after :
  cluster_flag flag -> PyStr.int token = None ->
  parse_args (before ++ flag :: token :: after) = None.
Proof.
  intros Hflag Hint. unfold parse_args.
  destruct (classify (before ++ flag :: token :: after)) as [cs|] eqn:E;
    [|reflexivity].
  destruct (classify_doomed _ _ _ _ Hflag Hint cs E) as (pre & core & -> & Hnd & Hf).
  apply (consume_doomed core Hf pre Hnd).
Qed.

(** *** The defaults *)

Lemma int_digits_nonneg s after_digit acc n v m :
  (0 <= acc)%Z -> PyStr.int_digits s after_digit acc n = Some (v, m) -> (0 <= v)%Z.
Proof.
  revert after_digit acc n.
  induction s as [|c t IH]; intros b acc n Hacc; cbn [PyStr.int_digits].
  - destruct b; [|discriminate]. intros H. injection H as <- _. exact Hacc.
  - destruct (PyStr.is_digit c).
    + apply IH. unfold PyStr.digit_val. lia.
    + destruct (Ascii.eqb c "_" && b); [apply IH; exact Hacc | discriminate].
Qed.

(** A text that starts with a minus sign is no positive integer. *)
Lemma int_minus t n : PyStr.int (String "-" t) = Some n -> (n <= 0)%Z.
Proof.
  unfold PyStr.int, PyStr.strip. cbn [PyStr.lstrip].
  change (PyStr.is_space "-") with false. cbv iota. cbn [PyStr.rstrip].
  change (PyStr.is_space "-") with false.
  assert (E : exists u, match PyStr.rstrip t with
                        | EmptyString => String "-" EmptyString
                        | String a s => String "-" (String a s)
                        end = String "-" u)
    by (destruct (PyStr.rstrip t); eauto).
  destruct E as [u ->]. cbn [Ascii.eqb Bool.eqb].
  destruct (PyStr.int_digits u false 0 0) as [[v m]|] eqn:Ed; [|discriminate].
  destruct (PyStr.int_max_str_digits <? m); [discriminate|].
  intros H. injection H as <-.
  pose proof (int_digits_nonneg _ _ _ _ _ _ (Z.le_refl 0) Ed). lia.
Qed.

Lemma int_in_range_plain value n :
  PyStr.int value = Some n -> in_range n = true ->
  exists c t, value = String c t /\ Ascii.eqb c "-" = false.
Proof.
  intros Hint Hr. destruct value as [|c t]; [discriminate Hint|].
  exists c, t. split; [reflexivity|].
  destruct (Ascii.eqb c "-") eqn:E; [|reflexivity].
  apply Ascii.eqb_eq in E. subst c. apply int_minus in Hint.
  unfold in_range in Hr. apply andb_true_iff in Hr as [Hr _].
  apply Z.leb_le in Hr. lia.
Qed.

Lemma classify_plain c t rest :
  Ascii.eqb c "-" = false ->
  classify (String c t :: rest) =
  match classify rest with
  | Some cs => Some ((A, String c t) :: cs)
  | None => None
  end.
Proof.
  intros E. rewrite classify_cons.
  assert (Hdd : String.eqb (String c t) "--" = false) by (simpl; now rewrite E).
  assert (Hp : parse_optional (String c t) = IsPositional)
    by (unfold parse_optional; now rewrite E).
  now rewrite Hdd, Hp.
Qed.

Lemma classify_cluster_flag rest :
  classify ("--cluster_Y" :: rest) =
    match classify rest with
    | Some cs => Some ((O (Some (Cluster Y)) None, "--cluster_Y") :: cs)
    | None => None
    end /\
  classify ("--cluster_mt" :: rest) =
    match classify rest with
    | Some cs => Some ((O (Some (Cluster mt)) None, "--cluster_mt") :: cs)
    | None => None
    end.
Proof. rewrite !classify_cons. split; destruct (classify rest); reflexivity. Qed.

(** One cluster flag with a number in range: the other one keeps its
    default. *)
Lemma parse_args_one_flag value n :
  PyStr.int value = Some n -> in_range n = true ->
  parse_args ["--cluster_Y"; value; file_name] = Some (store Y n defaults) /\
  parse_args ["--cluster_mt"; value; file_name] = Some (store mt n defaults).
Proof.
  intros Hint Hr. destruct (int_in_range_plain value n Hint Hr) as (c & t & -> & E).
  destruct (classify_cluster_flag [String c t; file_name]) as [HY Hm].
  unfold parse_args. rewrite HY, Hm, (classify_plain c t [file_name] E).
  change (classify [file_name]) with (Some [(A, file_name)]). cbv beta iota.
  rewrite !consume_value. unfold get_value. rewrite Hint. split; reflexivity.
Qed.

(** One cluster flag with any integer: if the parser accepts the command
    line, the number is stored as given. *)
Lemma parse_args_flag_value value n args :
  PyStr.int value = Some n ->
  (parse_args ["--cluster_Y"; value; file_name] = Some args ->
   args = store Y n defaults) /\
  (parse_args ["--cluster_mt"; value; file_name] = Some args ->
   args = store mt n defaults).
Proof.
  intros Hint.
  destruct (classify_cluster_flag [value; file_name]) as [HY Hm].
  unfold parse_args. rewrite HY, Hm, (classify_cons value).
  destruct (String.eqb value "--") eqn:Edd.
  { apply String.eqb_eq in Edd. subst value. discriminate Hint. }
  change (classify [file_name]) with (Some [(A, file_name)]).
  destruct (parse_optional value) as [|a e|]; cbv beta iota.
  - rewrite !consume_value. unfold get_value. rewrite Hint.
    split; intros H; injection H as <-; reflexivity.
  - rewrite !consume_no_value by discriminate. split; discriminate.
  - split; discriminate.
Qed.

End CliFacts.

(** C9: when the parsed [--cluster_Y] or [--cluster_mt] is an integer
    outside 5 to 500, as with one cluster flag followed by such an integer,
    and when the argument after a cluster flag is no integer, the run prints
    one diagnostic line with the closing line under it and ends there,
    before any clustering and without a map; without the flags the numbers
    are 150 for Y and 350 for mt. *)
Theorem cluster_numbers_checked (centroid : Type)
    (KMeans_fit : nat -> list coord -> option (list nat * list centroid))
    (sheet : list raw_row) :
  (forall argv args,
      Cli.parse_args (tl argv) = Some args ->
      Cli.in_range (Cli.cluster_Y args) = false \/
      Cli.in_range (Cli.cluster_mt args) = false ->
      rejected (run centroid KMeans_fit argv sheet)) /\
  (forall prog before flag token after,
      Cli.cluster_flag flag -> PyStr.int token = None ->
      rejected (run centroid KMeans_fit (prog :: before ++ flag :: token :: after) sheet)) /\
  (forall prog value n,
      PyStr.int value = Some n -> Cli.in_range n = false ->
      rejected (run centroid KMeans_fit [prog; "--cluster_Y"; value; Cli.file_name] sheet) /\
      rejected (run centroid KMeans_fit [prog; "--cluster_mt"; value; Cli.file_name] sheet)) /\
  (forall prog, Cli.check [prog; Cli.file_name] = Cli.Proceed 150 350) /\
  (forall prog value n,
      PyStr.int value = Some n -> Cli.in_range n = true ->
      Cli.check [prog; "--cluster_Y"; value; Cli.file_name] = Cli.Proceed n 350 /\
      Cli.check [prog; "--cluster_mt"; value; Cli.file_name] = Cli.Proceed 150 n).
Proof.
  assert (Hrej : forall argv,
             (forall args, Cli.parse_args (tl argv) = Some args ->
                           Cli.in_range (Cli.cluster_Y args) = true ->
                           Cli.in_range (Cli.cluster_mt args) = true -> False) ->
             rejected (run centroid KMeans_fit argv sheet)).
  { intros argv Hno. unfold rejected, run.
    destruct (CliFacts.check_cases argv) as [(printed & -> & Hp)|(args & Ha & HY & Hm & _)].
    - exists printed. auto.
    - exfalso. exact (Hno args Ha HY Hm). }
  split; [|split; [|split; [|split]]].
  - intros argv args Ha Hout. apply Hrej. intros args' Ha' HY Hm.
    assert (args' = args) by congruence. subst args'.
    destruct Hout as [H|H]; congruence.
  - intros prog before flag token after Hflag Hint. apply Hrej.
    intros args Ha _ _. cbn [tl] in Ha.
    rewrite (CliFacts.parse_args_bad_value before flag token after Hflag Hint) in Ha.
    discriminate Ha.
  - intros prog value n Hint Hout.
    split; apply Hrej; intros args Ha HY Hm; cbn [tl] in Ha;
      [ apply (proj1 (CliFacts.parse_args_flag_value value n args Hint)) in Ha
      | apply (proj2 (CliFacts.parse_args_flag_value value n args Hint)) in Ha ];
      subst args; cbn [Cli.store Cli.cluster_Y Cli.cluster_mt] in HY, Hm; congruence.
  - intros prog. reflexivity.
  - intros prog value n Hint Hr.
    destruct (CliFacts.parse_args_one_flag value n Hint Hr) as [HY Hm].
    unfold Cli.check. cbn [length Nat.ltb Nat.leb last tl].
    change (negb (String.eqb Cli.file_name Cli.file_name)) with false. cbv iota.
    rewrite HY, Hm. cbn [Cli.store Cli.cluster_Y Cli.cluster_mt Cli.defaults].
    rewrite Hr. change (Cli.in_range 150) with true. change (Cli.in_range 350) with true.
    split; reflexivity.
Qed.

Lemma cluster_numbers_checked_witness :
  rejected (run unit round_robin_fit
              ["haplogroup_visualization.py"; "--cluster_Y"; "abc"; Cli.file_name]
              five_sites).
Proof.
  assert (Hflag : Cli.cluster_flag "--cluster_Y") by (left; reflexivity).
  assert (Hint : PyStr.int "abc" = None) by reflexivity.
  exact (proj1 (proj2 (cluster_numbers_checked unit round_robin_fit five_sites))
           "haplogroup_visualization.py" [] "--cluster_Y" "abc" [Cli.file_name]
           Hflag Hint).
Defined.

(** ** The whole run on the five sites *)

Example run_five_sites :
  match run unit round_robin_fit
          ["haplogroup_visualization.py"; "--cluster_Y"; "5"; "--cluster_mt"; "5";
           Cli.file_name] five_sites with
  | Saved fg_Y _ =>
      map (fun m => popup_text (legend m)) fg_Y =
      ["Spain<br>1 individuals<br>2001-3000 BP";
       "France<br>1 individuals<br>4001-5000 BP";
       "Italy<br>1 individuals<br>5001-6000 BP";
       "Greece<br>1 individuals<br>7001-8000 BP";
       "Poland<br>1 individuals<br>1-1000 BP"]
  | _ => False
  end.
Proof. vm_compute. reflexivity. Qed.

(** One sample of age 1 among the sites ends the run in the marker loop. *)
Example run_with_first_year :
  run unit round_robin_fit
    ["haplogroup_visualization.py"; "--cluster_Y"; "5"; "--cluster_mt"; "5";
     Cli.file_name] (first_year :: five_sites)
  = Raised AttributeError.
Proof. vm_compute. reflexivity. Qed.

(** Several bins and several countries in one cluster. *)
Example summarize_ex :
  summarize (lineage_table Y
               [bronze_age; unknown_mt;
                sample 5 4500 "Spain" 51.05%Q 13.74%Q (Str "R1b") (Str "H")])
  = Ok ({| cluster_countries := Str "Germany<br>Spain";
           total_indivs := 3;
           cluster_range := "1-5000 BP" |},
        ["1-1000"; "3001-4000"; "4001-5000"]).
Proof. vm_compute. reflexivity. Qed.

(** * Further properties *)

(** ** Country names *)

Lemma lookup_fix_cases (s : string) :
  (lookup_fix country_fixes s = s /\
   s <> "China " /\ s <> "Gernamy" /\ s <> "Turkey " /\
   s <> "Federated States of Micronesia") \/
  In (lookup_fix country_fixes s) ["China"; "Germany"; "Turkey"; "Micronesia"].
Proof.
  unfold country_fixes. cbn [lookup_fix].
  destruct (String.eqb_spec s "China "); [right; simpl; tauto|].
  destruct (String.eqb_spec s "Gernamy"); [right; simpl; tauto|].
  destruct (String.eqb_spec s "Turkey "); [right; simpl; tauto|].
  destruct (String.eqb_spec s "Federated States of Micronesia");
    [right; simpl; tauto|].
  left. auto.
Qed.

(** X1: after the country fix no name of the table is one of the four
    spellings that the fix replaces, and fixing a second time changes
    nothing. *)
Theorem country_fix_settles (sheet : list raw_row) (c : cell) :
  replace_country (replace_country c) = replace_country c /\
  (forall r k v, In r (annotations sheet) -> In (k, v) country_fixes ->
                 Country r <> Str k).
Proof.
  assert (Hfix : forall s k v, In (k, v) country_fixes ->
                               lookup_fix country_fixes s <> k).
  { intros s k v Hin.
    assert (Hk : In k ["China "; "Gernamy"; "Turkey ";
                       "Federated States of Micronesia"]).
    { simpl in Hin. simpl.
      repeat (destruct Hin as [Hin|Hin]; [injection Hin as <- _; tauto|]).
      destruct Hin. }
    destruct (lookup_fix_cases s) as [(-> & H1 & H2 & H3 & H4)|Hv].
    - simpl in Hk. intuition congruence.
    - intros E. rewrite E in Hv. cbn [In] in Hk, Hv.
      repeat (destruct Hk as [<-|Hk];
              [repeat (destruct Hv as [Hv|Hv]; [discriminate Hv|]); destruct Hv|]).
      destruct Hk. }
  split.
  - destruct c as [s|]; [|reflexivity]. cbn [replace_country]. f_equal.
    destruct (lookup_fix_cases s) as [(E & _)|Hs]; [now rewrite !E|].
    cbn [In] in Hs. repeat (destruct Hs as [<-|Hs]; [reflexivity|]). destruct Hs.
  - intros r k v Hr Hin E.
    apply In_filter_map in Hr as (raw & _ & Hc).
    assert (Hcountry : Country r = replace_country (raw_Country raw)).
    { unfold clean_row in Hc.
      destruct (raw_Mean_BP raw =? 0)%Z; [discriminate|].
      destruct (raw_Lat raw), (raw_Long raw); try discriminate.
      destruct (contains_placeholder _); [discriminate|].
      destruct (contains_placeholder _); [discriminate|].
      destruct (is_blank _); [discriminate|].
      destruct (is_blank _); [discriminate|].
      injection Hc as <-. reflexivity. }
    rewrite Hcountry in E. destruct (raw_Country raw) as [s|]; [|discriminate].
    cbn [replace_country] in E. injection E as E. exact (Hfix s k v Hin E).
Qed.

Lemma country_fix_settles_witness :
  Country bronze_age_row <> Str "Gernamy".
Proof.
  assert (Hr : In bronze_age_row (annotations [bronze_age; unknown_mt]))
    by (vm_compute; left; reflexivity).
  assert (Hin : In ("Gernamy", "Germany") country_fixes)
    by (right; left; reflexivity).
  exact (proj2 (country_fix_settles [bronze_age; unknown_mt] NaN)
           bronze_age_row "Gernamy" "Germany" Hr Hin).
Defined.

(** ** Rounded coordinates *)


(** ** The codes of a lineage table *)

(** X3: the code of a row of a lineage table holds none of the characters
    [+ / ( ) ' ~ @ - o r] and no white space, is not the unknown code, and
    is the cleaned code of a sheet row that passed the shared filters. *)
Theorem lineage_code_clean (l : lineage) (sheet : list raw_row) (x : lineage_row)
    (Hin : In x (lineage_table l sheet)) :
  has_cut_char (haplogroup x) = false /\
  haplogroup x <> ".." /\
  exists raw, In raw sheet /\ raw_idx raw = l_idx x /\
              passes_shared_filters raw = true /\
              haplogroup x = cleanup (astype_str (raw_code l raw)).
Proof.
  apply In_lineage_table in Hin as (raw & r & Hraw & Hc & Hu & ->).
  pose proof (code_of_clean l raw r Hc) as Hcode.
  pose proof (clean_row_Some raw r Hc) as (Hp & Hi & _).
  cbn [haplogroup view l_idx].
  split; [rewrite Hcode, cleanup_truncate; apply truncate_no_cut|].
  split.
  - intros E. unfold is_unknown in Hu. rewrite E in Hu. discriminate Hu.
  - exists raw. auto.
Qed.

Lemma lineage_code_clean_witness :
  has_cut_char "R1a1a" = false.
Proof.
  assert (Hin : In (view Y bronze_age_row) (lineage_table Y [bronze_age]))
    by (vm_compute; left; reflexivity).
  exact (proj1 (lineage_code_clean Y [bronze_age] (view Y bronze_age_row) Hin)).
Defined.




(** X5: a code that passes the filters and opens with a character of the
    class is cleaned to the empty code; its row stays in the table, and all
    four of its subgroups are empty. *)
Theorem code_may_be_empty (l : lineage) (sheet : list raw_row) (raw : raw_row)
    (c : ascii) (t : string)
    (Hin : In raw sheet)
    (Hpass : passes_shared_filters raw = true)
    (Hcode : astype_str (raw_code l raw) = String c t)
    (Hcut : in_class c = true) :
  exists x, In x (lineage_table l sheet) /\ l_idx x = raw_idx raw /\
            haplogroup x = EmptyString /\
            subgroups_of (haplogroup x)
            = {| first_letter := EmptyString; first_two_letters := EmptyString;
                 first_three_letters := EmptyString;
                 first_five_letters := EmptyString |}.
Proof.
  destruct (clean_row_kept raw Hpass) as [r Hc].
  pose proof (code_of_clean l raw r Hc) as Hcode'.
  assert (Hempty : code_of l r = EmptyString).
  { rewrite Hcode', Hcode, cleanup_truncate. cbn [truncate_at_first_cut].
    now rewrite Hcut. }
  exists (view l r). cbn [haplogroup view l_idx]. rewrite Hempty.
  repeat split.
  - apply In_lineage_table. exists raw, r. repeat split; auto. now rewrite Hempty.
  - now apply clean_row_Some in Hc as (_ & Hi & _).
Qed.

Lemma code_may_be_empty_witness :
  exists x, In x (lineage_table Y [bracketed]) /\ l_idx x = 20 /\
            haplogroup x = EmptyString.
Proof.
  assert (Hin : In bracketed [bracketed]) by (left; reflexivity).
  assert (Hpass : passes_shared_filters bracketed = true) by reflexivity.
  assert (Hcode : astype_str (raw_code Y bracketed) = String "(" "R1b)")
    by reflexivity.
  assert (Hcut : in_class "(" = true) by reflexivity.
  destruct (code_may_be_empty Y [bracketed] bracketed "(" "R1b)" Hin Hpass Hcode Hcut)
    as (x & H1 & H2 & H3 & _).
  exists x. auto.
Defined.

(** ** The unknown codes *)

Lemma filter_length_mono {A : Type} (f g : A -> bool) (l : list A) :
  (forall a, f a = true -> g a = true) ->
  length (filter f l) <= length (filter g l).
Proof.
  intros H. induction l as [|a rest IH]; simpl; [lia|].
  destruct (f a) eqn:E.
  - rewrite (H a E). simpl. lia.
  - destruct (g a); simpl; lia.
Qed.

(** X6: a lineage table is the shared table without the rows whose code is
    [".."]; the stored count of unknowns is at least the number of rows
    removed, and it is larger when a kept code holds two dots inside. *)
Theorem unknowns_count_bounds (l : lineage) (sheet : list raw_row) :
  length (annotations sheet) = length (lineage_table l sheet) + removed_unknowns l sheet /\
  removed_unknowns l sheet <= unknowns_count l sheet /\
  removed_unknowns mt [dotted] = 0 /\ unknowns_count mt [dotted] = 1.
Proof.
  split; [|split; [|split; reflexivity]].
  - unfold lineage_table, removed_unknowns. rewrite length_map.
    rewrite <- (filter_length (fun r => is_unknown (code_of l r)) (annotations sheet)).
    lia.
  - unfold removed_unknowns, unknowns_count. apply filter_length_mono.
    intros r H. unfold is_unknown in H. apply String.eqb_eq in H.
    rewrite H. reflexivity.
Qed.

(** ** Sorting by key *)

Lemma insert_by_key_perm (x : Z * string) (l : list (Z * string)) :
  Permutation (insert_by_key x l) (x :: l).
Proof.
  induction l as [|y rest IH]; simpl; [reflexivity|].
  destruct (fst x <=? fst y)%Z; [reflexivity|].
  rewrite IH. apply perm_swap.
Qed.

Lemma sort_perm (pairs : list (Z * string)) :
  Permutation (fold_right insert_by_key [] pairs) pairs.
Proof.
  induction pairs as [|x rest IH]; simpl; [reflexivity|].
  rewrite insert_by_key_perm. now constructor.
Qed.

Lemma insert_by_key_sorted (x : Z * string) (l : list (Z * string)) :
  StronglySorted le_key l -> StronglySorted le_key (insert_by_key x l).
Proof.
  induction l as [|y rest IH]; intros Hs; simpl.
  - constructor; constructor.
  - inversion Hs as [|? ? Hrest Hy]; subst.
    destruct (Z.leb_spec (fst x) (fst y)) as [Hle|Hlt].
    + constructor; [exact Hs|]. constructor; [exact Hle|].
      rewrite Forall_forall in *. intros z Hz. unfold le_key in *.
      specialize (Hy z Hz). lia.
    + constructor; [apply IH; exact Hrest|].
      rewrite Forall_forall in *. intros z Hz.
      apply In_insert_by_key in Hz as [->|Hz]; [unfold le_key; lia | now apply Hy].
Qed.

Lemma sort_sorted (pairs : list (Z * string)) :
  StronglySorted le_key (fold_right insert_by_key [] pairs).
Proof.
  induction pairs as [|x rest IH]; simpl; [constructor|].
  now apply insert_by_key_sorted.
Qed.

(** A key that was computed is the lower bound of its label. *)
Lemma keyed_Some (s : string) (p : Z * string) :
  keyed (Some s) = Ok p -> p = (lower_bound s, s).
Proof.
  intros H. unfold lower_bound. rewrite H. destruct p as [n s'].
  unfold keyed in H. destruct (index (PyStr.split "-" s) 0); [|discriminate H].
  cbn [bind] in H. destruct (PyStr.int a); [|discriminate H].
  injection H as <- <-. reflexivity.
Qed.

Lemma mapM_keyed_inv (values : list (option string)) (pairs : list (Z * string)) :
  mapM keyed values = Ok pairs ->
  values = map Some (map snd pairs) /\
  pairs = map (fun s => (lower_bound s, s)) (map snd pairs).
Proof.
  revert pairs. induction values as [|v rest IH]; intros pairs H.
  - injection H as <-. split; reflexivity.
  - cbn [mapM] in H. destruct (keyed v) as [p|e] eqn:Ek; [|discriminate H].
    cbn [bind] in H. destruct (mapM keyed rest) as [ps|e] eqn:Em; [|discriminate H].
    injection H as <-. destruct (IH ps eq_refl) as [Hv Hp].
    destruct v as [s|]; [|discriminate Ek].
    apply keyed_Some in Ek. subst p. cbn [map snd]. split; congruence.
Qed.

Lemma sorted_labels (ls : list string) :
  StronglySorted le_key (map (fun s => (lower_bound s, s)) ls) ->
  StronglySorted by_lower_bound ls.
Proof.
  induction ls as [|a rest IH]; intros H; [constructor|].
  cbn [map] in H. inversion H as [|? ? Hrest Ha]; subst.
  constructor; [now apply IH|].
  rewrite Forall_forall in *. intros b Hb.
  apply (Ha (lower_bound b, b)). apply in_map_iff. eauto.
Qed.

(** What [sorted] returns: the labels it was given, in the order of their
    lower bounds. *)
Lemma sorted_by_key_inv (values : list (option string)) (out : list string) :
  sorted_by_key values = Ok out ->
  exists ls, values = map Some ls /\ Permutation out ls /\
             StronglySorted by_lower_bound out.
Proof.
  unfold sorted_by_key. destruct (mapM keyed values) as [pairs|e] eqn:Em;
    [|discriminate].
  cbn [bind]. intros H. injection H as <-.
  destruct (mapM_keyed_inv values pairs Em) as [Hv Hp].
  exists (map snd pairs). split; [exact Hv|].
  split; [apply Permutation_map, sort_perm|].
  set (sorted := fold_right insert_by_key [] pairs).
  assert (Hs : sorted = map (fun s => (lower_bound s, s)) (map snd sorted)).
  { assert (Hall : Forall (fun p => p = (lower_bound (snd p), snd p)) pairs).
    { rewrite Hp. apply Forall_forall. intros p Hin.
      apply in_map_iff in Hin as (s & <- & _). reflexivity. }
    assert (Hall' : Forall (fun p => p = (lower_bound (snd p), snd p)) sorted).
    { rewrite Forall_forall in *. intros p Hin. apply Hall.
      apply (proj1 (In_sorted pairs p)). exact Hin. }
    clear -Hall'. induction sorted as [|p rest IH]; [reflexivity|].
    inversion Hall' as [|? ? Hp' Hrest]; subst. cbn [map].
    rewrite <- Hp'. f_equal. now apply IH. }
  apply sorted_labels. rewrite <- Hs. apply sort_sorted.
Qed.

(** On the ten labels the lower bound tells the label, and a strict order
    comes with the absence of repeats. *)
Lemma lower_bound_inj (a b : string) :
  In a bp_labels -> In b bp_labels -> lower_bound a = lower_bound b -> a = b.
Proof.
  intros Ha Hb. simpl in Ha, Hb.
  repeat (destruct Ha as [<-|Ha]; [
    repeat (destruct Hb as [<-|Hb];
            [vm_compute; intros H; first [reflexivity | discriminate H]|]);
    destruct Hb|]).
  destruct Ha.
Qed.

Lemma strictly_sorted (ls : list string) :
  (forall s, In s ls -> In s bp_labels) ->
  NoDup ls -> StronglySorted by_lower_bound ls ->
  StronglySorted strictly_by_lower_bound ls.
Proof.
  intros Hlab Hnd Hs. induction Hs as [|a rest Hrest IH Ha]; [constructor|].
  inversion Hnd as [|? ? Hnot Hnd']; subst.
  constructor; [apply IH; [intros; apply Hlab; now right | exact Hnd']|].
  rewrite Forall_forall in *. intros b Hb.
  specialize (Ha b Hb). unfold by_lower_bound, strictly_by_lower_bound in *.
  destruct (Z.eq_dec (lower_bound a) (lower_bound b)) as [E|E]; [|lia].
  exfalso. apply Hnot.
  rewrite (lower_bound_inj a b); [exact Hb | apply Hlab; now left
                                | apply Hlab; now right | exact E].
Qed.

(** ** The tags of the markers and the buttons of the tag filter *)

Lemma dropna_In (values : list (option string)) (s : string) :
  In s (dropna values) <-> In (Some s) values.
Proof.
  unfold dropna. rewrite In_filter_map. split.
  - intros (v & Hv & ->). exact Hv.
  - intros H. eauto.
Qed.

Lemma categories_In (sheet : list raw_row) (s : string) :
  In s (bp_range_categories sheet) <->
  exists r, In r (annotations sheet) /\ BP_range_of (Mean_BP r) = Some s.
Proof.
  unfold bp_range_categories.
  rewrite (In_unique String.eqb String.eqb_eq), dropna_In, in_map_iff.
  split; intros (r & H1 & H2); exists r; auto.
Qed.

Lemma map_Some_inj (a b : list string) : map Some a = map Some b -> a = b.
Proof.
  revert b. induction a as [|x a IH]; intros [|y b] H; try discriminate;
    [reflexivity|].
  injection H as -> H. f_equal. now apply IH.
Qed.

Lemma categories_labels (sheet : list raw_row) (s : string) :
  In s (bp_range_categories sheet) -> In s bp_labels.
Proof.
  intros Hs. apply categories_In in Hs as (r & _ & Hr).
  exact (BP_range_label _ _ Hr).
Qed.

(** Sorting the categories cannot fail; it reorders them. *)
Lemma buttons_sorted (sheet : list raw_row) :
  exists cats,
    bp_range_categories_sorted sheet = Ok cats /\
    Permutation cats (bp_range_categories sheet) /\
    StronglySorted by_lower_bound cats.
Proof.
  unfold bp_range_categories_sorted.
  destruct (mapM_keyed_binned (map Some (bp_range_categories sheet)))
    as (pairs & Hm & _).
  { intros v Hv. apply in_map_iff in Hv as (s & <- & Hs).
    exists s. split; [reflexivity | exact (categories_labels sheet s Hs)]. }
  assert (Hok : exists cats,
             sorted_by_key (map Some (bp_range_categories sheet)) = Ok cats)
    by (unfold sorted_by_key; rewrite Hm; eexists; reflexivity).
  destruct Hok as [cats Hcats]. exists cats. split; [exact Hcats|].
  destruct (sorted_by_key_inv _ _ Hcats) as (ls & Hv & Hperm & Hsorted).
  apply map_Some_inj in Hv. subst ls. auto.
Qed.

(** X7: the buttons of the tag filter are always computed: they are the
    bins that occur in the shared table, each once, in the strict order of
    their lower bounds. *)
Theorem tag_filter_buttons (sheet : list raw_row) :
  exists cats,
    bp_range_categories_sorted sheet = Ok cats /\
    NoDup cats /\
    StronglySorted strictly_by_lower_bound cats /\
    (forall s, In s cats <->
               exists r, In r (annotations sheet) /\ BP_range_of (Mean_BP r) = Some s) /\
    (forall s, In s cats -> In s bp_labels).
Proof.
  destruct (buttons_sorted sheet) as (cats & Hcats & Hperm & Hsorted).
  exists cats. split; [exact Hcats|].
  assert (Hin : forall s, In s cats <-> In s (bp_range_categories sheet)).
  { intros s. split; intros H.
    - exact (Permutation_in s Hperm H).
    - exact (Permutation_in s (Permutation_sym Hperm) H). }
  assert (Hnd : NoDup cats).
  { apply (Permutation_NoDup (Permutation_sym Hperm)).
    apply (NoDup_unique String.eqb String.eqb_eq). }
  assert (Hcl : forall s, In s cats -> In s bp_labels)
    by (intros s Hs; apply (categories_labels sheet), Hin, Hs).
  split; [exact Hnd|].
  split; [now apply strictly_sorted|].
  split; [|exact Hcl].
  intros s. rewrite Hin. apply categories_In.
Qed.

(** The tags that the loop gives a marker are what [sorted] returned. *)
Lemma cluster_range_tags (subset : list lineage_row) (tags : list string) (text : string) :
  cluster_range_of subset = Ok (tags, text) ->
  sorted_by_key (unique label_eqb (map BP_range subset)) = Ok tags.
Proof.
  unfold cluster_range_of.
  destruct (sorted_by_key _) as [bp_ranges|e]; [|discriminate].
  cbn [bind].
  destruct (index bp_ranges 0) as [first|e]; [|discriminate]. cbn [bind].
  destruct (index (PyStr.split "-" first) 0) as [a|e]; [|discriminate]. cbn [bind].
  destruct (index bp_ranges (length bp_ranges - 1)) as [last|e]; [|discriminate].
  cbn [bind].
  destruct (index (PyStr.split "-" last) 1) as [b|e]; [|discriminate]. cbn [bind].
  destruct (String.eqb a b); intros H; injection H as <- _; reflexivity.
Qed.

(** The tags of a cluster: its bins, each once, in strict order. *)
Lemma tags_of_subset (subset : list lineage_row) (tags : list string) (text : string) :
  cluster_range_of subset = Ok (tags, text) ->
  NoDup tags /\ StronglySorted by_lower_bound tags /\
  (forall t, In t tags <-> exists r, In r subset /\ BP_range r = Some t) /\
  (forall r, In r subset -> exists t, BP_range r = Some t).
Proof.
  intros H. apply cluster_range_tags in H.
  destruct (sorted_by_key_inv _ _ H) as (ls & Hv & Hperm & Hsorted).
  assert (Hmem : forall v, In v (map Some ls) <-> In v (map BP_range subset)).
  { intros v. rewrite <- Hv. apply (In_unique label_eqb label_eqb_eq). }
  assert (Hnd : NoDup ls).
  { apply (NoDup_map_inv Some). rewrite <- Hv.
    apply (NoDup_unique label_eqb label_eqb_eq). }
  repeat split.
  - exact (Permutation_NoDup (Permutation_sym Hperm) Hnd).
  - exact Hsorted.
  - intros Ht. apply (Permutation_in t Hperm) in Ht.
    assert (Hs : In (Some t) (map Some ls)) by now apply in_map.
    apply Hmem, in_map_iff in Hs as (r & Hr & Hin). eauto.
  - intros (r & Hin & Hr). apply (Permutation_in t (Permutation_sym Hperm)).
    assert (Hs : In (Some t) (map Some ls)).
    { apply Hmem. rewrite <- Hr. now apply in_map. }
    apply in_map_iff in Hs as (t' & E & Ht'). now injection E as <-.
  - intros r Hin.
    assert (Hs : In (BP_range r) (map Some ls)) by (apply Hmem; now apply in_map).
    apply in_map_iff in Hs as (t & E & _). eauto.
Qed.

Lemma lineage_table_view (l : lineage) (sheet : list raw_row) (x : lineage_row) :
  In x (lineage_table l sheet) ->
  exists r, In r (annotations sheet) /\ x = view l r.
Proof.
  unfold lineage_table. rewrite in_map_iff.
  intros (r & <- & Hin). apply filter_In in Hin as [Hin _]. eauto.
Qed.

(** X8: the tags of the marker of a cluster are the bins of its members,
    each once, in the strict order of their lower bounds, and there is at
    least one. *)
Theorem marker_tags_sorted (l : lineage) (sheet : list raw_row) (points : list coord)
    (tags : list string) (text : string)
    (Hrange : cluster_range_of (subset_of (lineage_table l sheet) points) = Ok (tags, text)) :
  tags <> [] /\ NoDup tags /\
  StronglySorted strictly_by_lower_bound tags /\
  (forall t, In t tags <->
             exists r, In r (subset_of (lineage_table l sheet) points) /\
                       BP_range r = Some t).
Proof.
  destruct (tags_of_subset _ _ _ Hrange) as (Hnd & Hsorted & Hin & _).
  assert (Hlab : forall t, In t tags -> In t bp_labels).
  { intros t Ht. apply Hin in Ht as (r & Hr & E).
    rewrite (lineage_table_bin l sheet r) in E by (eapply subset_of_In; eauto).
    exact (BP_range_label _ _ E). }
  split.
  - intros E. subst tags.
    destruct (subset_of (lineage_table l sheet) points) as [|r rest] eqn:Es.
    + rewrite cluster_range_of_nil in Hrange. discriminate Hrange.
    + destruct (tags_of_subset _ _ _ Hrange) as (_ & _ & Hin' & Hall).
      destruct (Hall r (or_introl eq_refl)) as [t Ht].
      apply (proj2 (Hin' t)). exists r. split; [now left | exact Ht].
  - split; [exact Hnd|]. split; [now apply strictly_sorted | exact Hin].
Qed.

Lemma marker_tags_sorted_witness :
  NoDup ["1-1000"; "3001-4000"].
Proof.
  assert (H : cluster_range_of
                (subset_of (lineage_table Y [bronze_age; unknown_mt]) [(5105, 1374)%Z])
              = Ok (["1-1000"; "3001-4000"], "1-4000 BP"))
    by (vm_compute; reflexivity).
  exact (proj1 (proj2 (marker_tags_sorted Y [bronze_age; unknown_mt]
                         [(5105, 1374)%Z] _ _ H))).
Defined.

Lemma cluster_marker_range (centroid : Type) (data : list lineage_row)
    (labelled : list (coord * nat)) (centers : list centroid) (cluster_id : nat)
    (m : marker centroid) :
  cluster_marker centroid data labelled centers cluster_id = Ok m ->
  cluster_range_of (subset_of data (cluster_points labelled cluster_id))
  = Ok (tags m, cluster_range (legend m)).
Proof.
  unfold cluster_marker, summarize.
  destruct (index centers cluster_id) as [c|e]; cbn [bind]; [|discriminate].
  destruct (cluster_range_of _) as [[bp text]|e]; cbn [bind]; [|discriminate].
  destruct (cluster_countries_of _) as [cs|e]; cbn [bind]; [|discriminate].
  intros H. injection H as <-. reflexivity.
Qed.

(** X9: each tag of a marker has its button in the tag filter. *)
Theorem marker_tag_has_button (centroid : Type) (l : lineage) (sheet : list raw_row)
    (labelled : list (coord * nat)) (centers : list centroid) (cluster_id : nat)
    (m : marker centroid)
    (Hmarker : cluster_marker centroid (lineage_table l sheet) labelled centers cluster_id
               = Ok m) :
  exists cats, bp_range_categories_sorted sheet = Ok cats /\
               forall t, In t (tags m) -> In t cats.
Proof.
  destruct (buttons_sorted sheet) as (cats & Hcats & Hperm & _).
  exists cats. split; [exact Hcats|]. intros t Ht.
  apply cluster_marker_range in Hmarker.
  destruct (tags_of_subset _ _ _ Hmarker) as (_ & _ & Hin & _).
  apply Hin in Ht as (x & Hx & Ex).
  apply subset_of_In in Hx.
  rewrite (lineage_table_bin l sheet x Hx) in Ex.
  apply lineage_table_view in Hx as (r & Hr & ->). cbn [l_Mean_BP view] in Ex.
  apply (Permutation_in t (Permutation_sym Hperm)).
  apply categories_In. eauto.
Qed.

Lemma marker_tag_has_button_witness :
  exists cats, bp_range_categories_sorted five_sites = Ok cats /\
               In "2001-3000" cats.
Proof.
  assert (H : cluster_marker unit (lineage_table Y five_sites)
                [((4042, -370)%Z, 0)] [tt] 0
              = Ok {| location := tt;
                      legend := {| cluster_countries := Str "Spain";
                                   total_indivs := 1;
                                   cluster_range := "2001-3000 BP" |};
                      tags := ["2001-3000"] |})
    by (vm_compute; reflexivity).
  destruct (marker_tag_has_button unit Y five_sites _ _ _ _ H) as (cats & Hc & Hin).
  exists cats. split; [exact Hc | apply Hin; left; reflexivity].
Defined.

(** ** The era range of a cluster *)










(** ** The countries of a cluster *)

Lemma unique_map_Str (names : list string) :
  unique cell_eqb (map Str names) = map Str (unique String.eqb names).
Proof.
  induction names as [|a rest IH]; [reflexivity|].
  cbn [map unique]. rewrite IH. f_equal.
  rewrite filter_map_swap. reflexivity.
Qed.

Lemma countries_are_names (subset : list lineage_row) :
  (forall r, In r subset -> l_Country r <> NaN) ->
  map l_Country subset = map Str (country_names subset).
Proof.
  induction subset as [|r rest IH]; intros H; [reflexivity|].
  unfold country_names in *. cbn [map filter_map].
  destruct (l_Country r) as [s|] eqn:E.
  - cbn [map]. f_equal. apply IH. intros r' Hr'. apply H. now right.
  - exfalso. apply (H r); [now left | exact E].
Qed.

Lemma mapM_as_str_names (names : list string) :
  mapM as_str (map Str names) = Ok names.
Proof.
  induction names as [|a rest IH]; [reflexivity|].
  cbn [map mapM as_str bind]. now rewrite IH.
Qed.

Lemma country_names_In (subset : list lineage_row) (n : string) :
  In n (country_names subset) <-> exists r, In r subset /\ l_Country r = Str n.
Proof.
  unfold country_names. rewrite In_filter_map. split.
  - intros (r & Hr & E). exists r. split; [exact Hr|].
    destruct (l_Country r); [now injection E as -> | discriminate E].
  - intros (r & Hr & E). exists r. split; [exact Hr | now rewrite E].
Qed.

(** X11: when every member of a cluster has a country, the countries shown
    are the distinct names in the order of their first member, joined by
    [<br>]; a single name is shown bare. *)
Theorem country_display (subset : list lineage_row)
    (Hmember : subset <> [])
    (Hcountry : forall r, In r subset -> l_Country r <> NaN) :
  cluster_countries_of subset
  = Ok (Str (PyStr.join "<br>" (unique String.eqb (country_names subset)))) /\
  NoDup (unique String.eqb (country_names subset)) /\
  (forall n, In n (unique String.eqb (country_names subset)) <->
             exists r, In r subset /\ l_Country r = Str n) /\
  (forall n, unique String.eqb (country_names subset) = [n] ->
             cluster_countries_of subset = Ok (Str n)).
Proof.
  assert (Hshow : cluster_countries_of subset
                  = Ok (Str (PyStr.join "<br>" (unique String.eqb (country_names subset))))).
  { unfold cluster_countries_of.
    rewrite (countries_are_names subset Hcountry), unique_map_Str.
    assert (Hne : unique String.eqb (country_names subset) <> []).
    { apply unique_nonempty. intros E.
      apply (f_equal (map Str)) in E. rewrite <- countries_are_names in E by exact Hcountry.
      destruct subset; [tauto | discriminate E]. }
    destruct (unique String.eqb (country_names subset)) as [|a [|b names]];
      [tauto | reflexivity |].
    cbn [length map Nat.ltb Nat.leb].
    change (mapM as_str (Str a :: Str b :: map Str names))
      with (mapM as_str (map Str (a :: b :: names))).
    now rewrite mapM_as_str_names. }
  split; [exact Hshow|].
  split; [apply (NoDup_unique String.eqb String.eqb_eq)|].
  split.
  - intros n. rewrite (In_unique String.eqb String.eqb_eq). apply country_names_In.
  - intros n E. rewrite Hshow, E. reflexivity.
Qed.

Lemma country_display_witness :
  cluster_countries_of (lineage_table Y [bronze_age; unknown_mt; first_year])
  = Ok (Str (PyStr.join "<br>"
               (unique String.eqb
                  (country_names (lineage_table Y [bronze_age; unknown_mt; first_year]))))).
Proof.
  assert (Hmember : lineage_table Y [bronze_age; unknown_mt; first_year] <> [])
    by (vm_compute; discriminate).
  assert (Hcountry : forall r, In r (lineage_table Y [bronze_age; unknown_mt; first_year]) ->
                               l_Country r <> NaN).
  { intros r H. vm_compute in H.
    repeat (destruct H as [<-|H]; [simpl; discriminate|]). destruct H. }
  exact (proj1 (country_display _ Hmember Hcountry)).
Defined.

Lemma mapM_as_str_nan (cs : list cell) :
  In NaN cs -> mapM as_str cs = Raise TypeError.
Proof.
  induction cs as [|c rest IH]; intros H; [destruct H|].
  destruct c as [s|]; [|reflexivity].
  destruct H as [H|H]; [discriminate H|].
  cbn [mapM as_str bind]. now rewrite IH.
Qed.

(** X12: a cluster in which one member has a country and another has none
    makes the join of the countries raise [TypeError]; a cluster whose
    members all lack a country shows the missing value itself. *)
Theorem country_missing (subset : list lineage_row) :
  (forall r r' name, In r subset -> In r' subset ->
                     l_Country r = NaN -> l_Country r' = Str name ->
                     cluster_countries_of subset = Raise TypeError) /\
  (subset <> [] -> (forall r, In r subset -> l_Country r = NaN) ->
   cluster_countries_of subset = Ok NaN).
Proof.
  split.
  - intros r r' name Hr Hr' E E'. unfold cluster_countries_of.
    set (countries := unique cell_eqb (map l_Country subset)).
    assert (Hnan : In NaN countries).
    { apply (In_unique cell_eqb cell_eqb_eq). rewrite <- E. now apply in_map. }
    assert (Hstr : In (Str name) countries).
    { apply (In_unique cell_eqb cell_eqb_eq). rewrite <- E'. now apply in_map. }
    assert (Hnd : NoDup countries) by apply (NoDup_unique cell_eqb cell_eqb_eq).
    destruct countries as [|a [|b rest]].
    + destruct Hnan.
    + destruct Hnan as [Ha|[]]. destruct Hstr as [H|[]]. congruence.
    + cbn [length Nat.ltb Nat.leb]. now rewrite mapM_as_str_nan.
  - intros Hne Hall. unfold cluster_countries_of.
    assert (Hmap : map l_Country subset = repeat NaN (length subset)).
    { clear Hne. induction subset as [|r rest IH]; [reflexivity|].
      cbn [map length repeat]. rewrite (Hall r (or_introl eq_refl)). f_equal.
      apply IH. intros r' Hr'. apply Hall. now right. }
    rewrite Hmap. destruct subset as [|r rest]; [tauto|]. cbn [length repeat unique].
    assert (Hf : filter (fun b => negb (cell_eqb NaN b))
                        (unique cell_eqb (repeat NaN (length rest))) = []).
    { induction (length rest) as [|n IHn]; [reflexivity|].
      cbn [repeat unique]. rewrite IHn. reflexivity. }
    rewrite Hf. reflexivity.
Qed.

(** ** The marker loop and the saved map *)

Lemma mapM_length {A B : Type} (f : A -> result B) (l : list A) (bs : list B) :
  mapM f l = Ok bs -> length bs = length l.
Proof.
  revert bs. induction l as [|a rest IH]; intros bs H.
  - injection H as <-. reflexivity.
  - cbn [mapM] in H. destruct (f a) as [b|e]; [|discriminate H].
    cbn [bind] in H. destruct (mapM f rest) as [bs'|e]; [|discriminate H].
    injection H as <-. simpl. f_equal. now apply IH.
Qed.

Lemma mapM_nth {A B : Type} (f : A -> result B) (l : list A) (bs : list B)
    (i : nat) (b : B) :
  mapM f l = Ok bs -> nth_error bs i = Some b ->
  exists a, nth_error l i = Some a /\ f a = Ok b.
Proof.
  revert bs i. induction l as [|a rest IH]; intros bs i H Hb.
  - injection H as <-. destruct i; discriminate Hb.
  - cbn [mapM] in H. destruct (f a) as [b0|e] eqn:E; [|discriminate H].
    cbn [bind] in H. destruct (mapM f rest) as [bs'|e] eqn:E'; [|discriminate H].
    injection H as <-. destruct i as [|i].
    + injection Hb as <-. exists a. auto.
    + cbn [nth_error] in *. eapply IH; eauto.
Qed.

(** X13: a marker loop that completes has made one marker per cluster
    number, in order: marker [i] sits at centre [i], shows the number of
    members of cluster [i], and cluster [i] has a member. *)
Theorem marker_of_each_cluster (centroid : Type) (data : list lineage_row)
    (labelled : list (coord * nat)) (centers : list centroid) (n_clusters : nat)
    (ms : list (marker centroid))
    (Hloop : markers centroid data labelled centers n_clusters = Ok ms) :
  length ms = n_clusters /\
  forall i m, nth_error ms i = Some m ->
    i < n_clusters /\
    nth_error centers i = Some (location m) /\
    total_indivs (legend m) = length (subset_of data (cluster_points labelled i)) /\
    0 < total_indivs (legend m).
Proof.
  unfold markers in Hloop. split.
  - rewrite (mapM_length _ _ _ Hloop). apply length_seq.
  - intros i m Hm.
    destruct (mapM_nth _ _ _ i m Hloop Hm) as (c & Hc & Hmk).
    assert (Hi : i < n_clusters).
    { assert (Hi : i < length (seq 0 n_clusters))
        by (apply nth_error_Some; congruence).
      now rewrite length_seq in Hi. }
    rewrite nth_error_seq in Hc. destruct (Nat.ltb_spec i n_clusters); [|lia].
    injection Hc as <-. cbn [Nat.add] in Hmk.
    pose proof (cluster_marker_total centroid _ _ _ _ _ Hmk) as Htotal.
    split; [exact Hi|]. split; [|split; [exact Htotal|]].
    + unfold cluster_marker in Hmk. unfold index in Hmk.
      destruct (nth_error centers i) as [c|]; [|discriminate Hmk].
      cbn [bind] in Hmk. destruct (summarize _) as [s|e]; [|discriminate Hmk].
      cbn [bind] in Hmk. injection Hmk as <-. reflexivity.
    + rewrite Htotal. apply cluster_marker_range in Hmk.
      destruct (subset_of data (cluster_points labelled i)); [|simpl; lia].
      rewrite cluster_range_of_nil in Hmk. discriminate Hmk.
Qed.

Lemma marker_of_each_cluster_witness :
  length [ {| location := tt;
              legend := {| cluster_countries := Str "Spain";
                           total_indivs := 1;
                           cluster_range := "2001-3000 BP" |};
              tags := ["2001-3000"] |} ] = 1.
Proof.
  assert (H : markers unit (lineage_table Y five_sites) [((4042, -370)%Z, 0)] [tt] 1
              = Ok [ {| location := tt;
                        legend := {| cluster_countries := Str "Spain";
                                     total_indivs := 1;
                                     cluster_range := "2001-3000 BP" |};
                        tags := ["2001-3000"] |} ])
    by (vm_compute; reflexivity).
  exact (proj1 (marker_of_each_cluster unit _ _ _ _ _ H)).
Defined.

(** X14: a run that saves the map had the sheet name as its last argument
    and two cluster numbers from 5 to 500, and each layer of the map has as
    many markers as its cluster number. *)
Theorem saved_map_layers (centroid : Type)
    (KMeans_fit : nat -> list coord -> option (list nat * list centroid))
    (argv : list string) (sheet : list raw_row)
    (fg_Y fg_mt : list (marker centroid))
    (Hsaved : run centroid KMeans_fit argv sheet = Saved fg_Y fg_mt) :
  exists n_clusters_Y n_clusters_mt,
    Cli.check argv = Cli.Proceed n_clusters_Y n_clusters_mt /\
    (5 <= n_clusters_Y <= 500)%Z /\ (5 <= n_clusters_mt <= 500)%Z /\
    Z.of_nat (length fg_Y) = n_clusters_Y /\
    Z.of_nat (length fg_mt) = n_clusters_mt /\
    last argv EmptyString = Cli.file_name /\ length argv <= 6.
Proof.
  unfold run in Hsaved.
  destruct (CliFacts.check_cases argv)
    as [(printed & E & _)|(args & Ha & HY & Hm & E)];
    rewrite E in Hsaved; [discriminate Hsaved|].
  exists (Cli.cluster_Y args), (Cli.cluster_mt args).
  unfold Cli.in_range in HY, Hm.
  apply andb_true_iff in HY as [HY1 HY2]. apply andb_true_iff in Hm as [Hm1 Hm2].
  apply Z.leb_le in HY1, HY2, Hm1, Hm2.
  destruct (build_map centroid KMeans_fit sheet _ _) as [[a b]|e] eqn:Eb;
    [|discriminate Hsaved].
  injection Hsaved as -> ->.
  unfold build_map in Eb.
  destruct (fit centroid KMeans_fit _ _) as [kY|e]; [|discriminate Eb]. cbn [bind] in Eb.
  destruct (fit centroid KMeans_fit _ _) as [kmt|e]; [|discriminate Eb]. cbn [bind] in Eb.
  destruct (add_cluster_labels _ (fst kY)) as [lY|e]; [|discriminate Eb]. cbn [bind] in Eb.
  destruct (add_cluster_labels _ (fst kmt)) as [lmt|e]; [|discriminate Eb]. cbn [bind] in Eb.
  destruct (markers centroid (annotations_Y sheet) _ _ _) as [mY|e] eqn:EY;
    [|discriminate Eb]. cbn [bind] in Eb.
  destruct (markers centroid (annotations_mt sheet) _ _ _) as [mmt|e] eqn:Em;
    [|discriminate Eb]. cbn [bind] in Eb.
  injection Eb as <- <-.
  unfold markers in EY, Em.
  apply mapM_length in EY, Em. rewrite length_seq in EY, Em.
  split; [exact E|]. split; [lia|]. split; [lia|].
  split; [rewrite EY; lia|]. split; [rewrite Em; lia|].
  unfold Cli.check in E.
  destruct (Nat.ltb_spec 6 (length argv)); [discriminate E|].
  destruct (String.eqb_spec (last argv EmptyString) Cli.file_name);
    [|discriminate E].
  split; [assumption | lia].
Qed.

Lemma saved_map_layers_witness :
  exists fg_Y fg_mt : list (marker unit), length fg_Y = 5 /\ length fg_mt = 5.
Proof.
  assert (H : exists fg_Y fg_mt,
             run unit round_robin_fit
               ["haplogroup_visualization.py"; "--cluster_Y"; "5"; "--cluster_mt"; "5";
                Cli.file_name] five_sites = Saved fg_Y fg_mt)
    by (do 2 eexists; vm_compute; reflexivity).
  destruct H as (fg_Y & fg_mt & H).
  destruct (saved_map_layers unit round_robin_fit _ _ _ _ H)
    as (y & m & Hc & _ & _ & HY & Hm & _).
  assert (Hy : y = 5%Z /\ m = 5%Z).
  { vm_compute in Hc. injection Hc as <- <-. split; reflexivity. }
  destruct Hy as [-> ->].
  exists fg_Y, fg_mt. lia.
Defined.

(** A loop that completes has summarized every cluster that holds a row. *)
Lemma markers_member_binned (centroid : Type) (data : list lineage_row)
    (labelled : list (coord * nat)) (centers : list centroid) (k : nat)
    (ms : list (marker centroid)) (r : lineage_row) (lab : nat) :
  markers centroid data labelled centers k = Ok ms ->
  In r data -> lab < k -> In (coord_of r, lab) labelled ->
  (exists t, BP_range r = Some t) /\
  (length (unique cell_eqb (map l_Country
             (subset_of data (cluster_points labelled lab)))) < 2 \/
   l_Country r <> NaN).
Proof.
  intros Hloop Hr Hlab Hin. unfold markers in Hloop.
  destruct (mapM_Ok_In _ _ _ Hloop lab) as [m Hm]; [apply in_seq; lia|].
  assert (Hsub : In r (subset_of data (cluster_points labelled lab))).
  { unfold subset_of. apply filter_In. split; [exact Hr|].
    apply isin_In, In_cluster_points. exact Hin. }
  split.
  - apply cluster_marker_range in Hm.
    destruct (tags_of_subset _ _ _ Hm) as (_ & _ & _ & Hall). now apply Hall.
  - unfold cluster_marker, summarize in Hm.
    destruct (index centers lab); [|discriminate Hm]. cbn [bind] in Hm.
    destruct (cluster_range_of _); [|discriminate Hm]. cbn [bind] in Hm.
    unfold cluster_countries_of in Hm.
    set (subset := subset_of data (cluster_points labelled lab)) in *.
    destruct (Nat.ltb_spec (length (unique cell_eqb (map l_Country subset))) 2);
      [now left | right].
    intros E.
    rewrite mapM_as_str_nan in Hm; [discriminate Hm|].
    apply (In_unique cell_eqb cell_eqb_eq). rewrite <- E. now apply in_map.
Qed.

Section SavedMap.

Variable centroid : Type.
Variable KMeans_fit : nat -> list coord -> option (list nat * list centroid).

(** The documented shape of a fitted model, as before. *)
Hypothesis KMeans_shape :
  forall k X labels centers,
    KMeans_fit k X = Some (labels, centers) ->
    length labels = length X /\ length centers = k /\
    Forall (fun lab => lab < k) labels.

Lemma lineage_all_binned (data : list lineage_row) (k : nat)
    (model : list nat * list centroid) (labelled : list (coord * nat))
    (ms : list (marker centroid)) :
  fit centroid KMeans_fit k (lat_long_locations data) = Ok model ->
  add_cluster_labels (lat_long_locations data) (fst model) = Ok labelled ->
  markers centroid data labelled (snd model) k = Ok ms ->
  forall r, In r data -> exists t, BP_range r = Some t.
Proof.
  intros Hfit Hlab Hloop r Hr. unfold fit in Hfit.
  destruct (KMeans_fit k (lat_long_locations data)) as [[labels centers]|] eqn:E;
    [|discriminate Hfit].
  injection Hfit as <-. cbn [fst snd] in *.
  destruct (KMeans_shape _ _ _ _ E) as (Hl & _ & Hlt).
  unfold add_cluster_labels in Hlab. rewrite Hl, Nat.eqb_refl in Hlab.
  injection Hlab as <-.
  assert (Hc : In (coord_of r) (map fst (combine (lat_long_locations data) labels))).
  { rewrite map_fst_combine by exact Hl.
    apply (In_unique coord_eqb coord_eqb_eq). now apply in_map. }
  apply in_map_iff in Hc as ([c lab] & Hfst & Hp). simpl in Hfst. subst c.
  pose proof (In_combine_snd _ _ _ _ Hlt Hp) as Hk. simpl in Hk.
  exact (proj1 (markers_member_binned centroid data _ centers k ms r lab
                  Hloop Hr Hk Hp)).
Qed.

(** X15: with a fitted model of the documented shape, a map is saved only
    if every row of both lineage tables has an age above 1 and at most
    44500. *)
Theorem saved_map_all_binned (argv : list string) (sheet : list raw_row)
    (Hsaved : exists fg_Y fg_mt, run centroid KMeans_fit argv sheet = Saved fg_Y fg_mt) :
  forall l r, In r (lineage_table l sheet) -> (1 < l_Mean_BP r <= 44500)%Z.
Proof.
  destruct Hsaved as (fg_Y & fg_mt & Hsaved).
  unfold run in Hsaved.
  destruct (Cli.check argv) as [|y m]; [discriminate Hsaved|].
  destruct (build_map centroid KMeans_fit sheet _ _) as [[a b]|e] eqn:Eb;
    [|discriminate Hsaved].
  unfold build_map in Eb.
  destruct (fit centroid KMeans_fit (Z.to_nat y) _) as [kY|e] eqn:FY;
    [|discriminate Eb]. cbn [bind] in Eb.
  destruct (fit centroid KMeans_fit (Z.to_nat m) _) as [kmt|e] eqn:Fm;
    [|discriminate Eb]. cbn [bind] in Eb.
  destruct (add_cluster_labels _ (fst kY)) as [lY|e] eqn:LY; [|discriminate Eb].
  cbn [bind] in Eb.
  destruct (add_cluster_labels _ (fst kmt)) as [lmt|e] eqn:Lm; [|discriminate Eb].
  cbn [bind] in Eb.
  destruct (markers centroid (annotations_Y sheet) _ _ _) as [mY|e] eqn:EY;
    [|discriminate Eb]. cbn [bind] in Eb.
  destruct (markers centroid (annotations_mt sheet) _ _ _) as [mmt|e] eqn:Em;
    [|discriminate Eb].
  intros l r Hr.
  assert (Hbin : exists t, BP_range r = Some t).
  { destruct l.
    - exact (lineage_all_binned _ _ _ _ _ FY LY EY r Hr).
    - exact (lineage_all_binned _ _ _ _ _ Fm Lm Em r Hr). }
  destruct Hbin as [t Ht]. rewrite (lineage_table_bin l sheet r Hr) in Ht.
  destruct (Z_lt_le_dec 1 (l_Mean_BP r)) as [H1|H1];
    [destruct (Z_le_gt_dec (l_Mean_BP r) 44500) as [H2|H2]; [lia|]|];
    exfalso;
    assert (Hnone : BP_range_of (l_Mean_BP r) = None)
      by (apply BP_range_unbinned; lia);
    congruence.
Qed.

End SavedMap.

Lemma saved_map_all_binned_witness :
  Forall (fun r => (1 < l_Mean_BP r <= 44500)%Z) (lineage_table Y five_sites).
Proof.
  apply Forall_forall.
  assert (H : exists fg_Y fg_mt,
             run unit round_robin_fit
               ["haplogroup_visualization.py"; "--cluster_Y"; "5"; "--cluster_mt"; "5";
                Cli.file_name] five_sites = Saved fg_Y fg_mt)
    by (do 2 eexists; vm_compute; reflexivity).
  exact (saved_map_all_binned unit round_robin_fit round_robin_shape _ _ H Y).
Defined.

(** ** More on the command line *)

Module CliMore.

Import Cli.
Import CliFacts.

(** X16: with the help option as the first argument the run prints the
    diagnostic about the integer: the exit of the help action is caught like
    an error of the parser. *)
Theorem help_gives_integer_diagnostic (prog h : string) (rest : list string)
    (Hhelp : help_flag h)
    (Hlen : length (prog :: h :: rest) <= 6)
    (Hfile : last (prog :: h :: rest) EmptyString = file_name) :
  parse_args (h :: rest) = None /\
  check (prog :: h :: rest) = Exit msg_integer.
Proof.
  assert (Hparse : parse_args (h :: rest) = None).
  { unfold parse_args. rewrite classify_cons.
    assert (Hh : String.eqb h "--" = false /\
                 parse_optional h = IsOptional (Some Help) None)
      by (destruct Hhelp as [->| ->]; split; reflexivity).
    destruct Hh as [-> ->].
    destruct (classify rest); reflexivity. }
  split; [exact Hparse|].
  unfold check.
  destruct (Nat.ltb_spec 6 (length (prog :: h :: rest))); [lia|].
  rewrite Hfile, String.eqb_refl. cbn [negb tl]. now rewrite Hparse.
Qed.

Lemma help_gives_integer_diagnostic_witness :
  check ["haplogroup_visualization.py"; "--help"; file_name] = Exit msg_integer.
Proof.
  assert (Hhelp : help_flag "--help") by (right; reflexivity).
  assert (Hlen : length ["haplogroup_visualization.py"; "--help"; file_name] <= 6)
    by (simpl; lia).
  assert (Hfile : last ["haplogroup_visualization.py"; "--help"; file_name] EmptyString
                  = file_name) by reflexivity.
  exact (proj2 (help_gives_integer_diagnostic _ _ _ Hhelp Hlen Hfile)).
Defined.

Lemma int_positive_plain value n :
  PyStr.int value = Some n -> (0 < n)%Z ->
  exists c t, value = String c t /\ Ascii.eqb c "-" = false.
Proof.
  intros Hint Hpos. destruct value as [|c t]; [discriminate Hint|].
  exists c, t. split; [reflexivity|].
  destruct (Ascii.eqb c "-") eqn:E; [|reflexivity].
  apply Ascii.eqb_eq in E. subst c. apply int_minus in Hint. lia.
Qed.

Lemma classify_file_name rest :
  classify (file_name :: rest) =
  match classify rest with
  | Some cs => Some ((A, file_name) :: cs)
  | None => None
  end.
Proof. apply (classify_plain "A" "ADR Annotations 2025.xlsx"). reflexivity. Qed.

(** X17: the sheet name has to be the last argument: with a cluster flag
    behind it the parser would accept the command line, with the number as
    given, but the run ends before on the diagnostic about the file. *)
Theorem file_name_must_be_last (prog value : string) (n : Z)
    (Hint : PyStr.int value = Some n) (Hpos : (0 < n)%Z) :
  parse_args [file_name; "--cluster_Y"; value] = Some (store Y n defaults) /\
  parse_args [file_name; "--cluster_mt"; value] = Some (store mt n defaults) /\
  check [prog; file_name; "--cluster_Y"; value] = Exit msg_file /\
  check [prog; file_name; "--cluster_mt"; value] = Exit msg_file.
Proof.
  destruct (int_positive_plain value n Hint Hpos) as (c & t & -> & E).
  destruct (classify_cluster_flag [String c t]) as [HY Hm].
  assert (Hv : classify [String c t] = Some [(A, String c t)])
    by (rewrite (classify_plain c t [] E); reflexivity).
  assert (Hne : String.eqb (String c t) file_name = false).
  { destruct (String.eqb_spec (String c t) file_name) as [E'|]; [|reflexivity].
    rewrite E' in Hint. discriminate Hint. }
  repeat split.
  - unfold parse_args. rewrite classify_file_name, HY, Hv. cbv beta iota.
    rewrite consume_A by discriminate. rewrite consume_value.
    unfold get_value. rewrite Hint. reflexivity.
  - unfold parse_args. rewrite classify_file_name, Hm, Hv. cbv beta iota.
    rewrite consume_A by discriminate. rewrite consume_value.
    unfold get_value. rewrite Hint. reflexivity.
  - unfold check. cbn [length Nat.ltb Nat.leb last]. now rewrite Hne.
  - unfold check. cbn [length Nat.ltb Nat.leb last]. now rewrite Hne.
Qed.

Lemma file_name_must_be_last_witness :
  check ["haplogroup_visualization.py"; file_name; "--cluster_Y"; "200"] = Exit msg_file.
Proof.
  assert (Hint : PyStr.int "200" = Some 200%Z) by reflexivity.
  assert (Hpos : (0 < 200)%Z) by lia.
  exact (proj1 (proj2 (proj2 (file_name_must_be_last
                                "haplogroup_visualization.py" "200" 200 Hint Hpos)))).
Defined.

(** X18: when a cluster flag is given twice the later number counts; an
    earlier number outside 5 to 500 goes unnoticed. *)
Theorem later_flag_counts (prog first second : string) (n1 n2 : Z)
    (Hfirst : PyStr.int first = Some n1) (Hpos : (0 < n1)%Z)
    (Hsecond : PyStr.int second = Some n2) (Hrange : in_range n2 = true) :
  check [prog; "--cluster_Y"; first; "--cluster_Y"; second; file_name]
    = Proceed n2 350 /\
  check [prog; "--cluster_mt"; first; "--cluster_mt"; second; file_name]
    = Proceed 150 n2.
Proof.
  destruct (int_positive_plain first n1 Hfirst Hpos) as (c1 & t1 & -> & E1).
  destruct (int_in_range_plain second n2 Hsecond Hrange) as (c2 & t2 & -> & E2).
  assert (Hparse :
    parse_args ["--cluster_Y"; String c1 t1; "--cluster_Y"; String c2 t2; file_name]
      = Some (store Y n2 defaults) /\
    parse_args ["--cluster_mt"; String c1 t1; "--cluster_mt"; String c2 t2; file_name]
      = Some (store mt n2 defaults)).
  { unfold parse_args.
    rewrite (proj1 (classify_cluster_flag _)), (proj2 (classify_cluster_flag _)).
    rewrite !(classify_plain c1 t1 _ E1).
    rewrite (proj1 (classify_cluster_flag _)), (proj2 (classify_cluster_flag _)).
    rewrite !(classify_plain c2 t2 _ E2).
    change (classify [file_name]) with (Some [(A, file_name)]). cbv beta iota.
    rewrite !consume_value. unfold get_value. rewrite Hfirst.
    rewrite !consume_value. unfold get_value. rewrite Hsecond.
    split; reflexivity. }
  destruct Hparse as [HY Hm].
  unfold check. cbn [length Nat.ltb Nat.leb last tl].
  change (negb (String.eqb file_name file_name)) with false. cbv iota.
  rewrite HY, Hm. cbn [store cluster_Y cluster_mt defaults].
  rewrite Hrange. change (in_range 150) with true. change (in_range 350) with true.
  split; reflexivity.
Qed.

Lemma later_flag_counts_witness :
  check ["haplogroup_visualization.py"; "--cluster_Y"; "3"; "--cluster_Y"; "10"; file_name]
    = Proceed 10 350.
Proof.
  assert (H1 : PyStr.int "3" = Some 3%Z) by reflexivity.
  assert (H2 : (0 < 3)%Z) by lia.
  assert (H3 : PyStr.int "10" = Some 10%Z) by reflexivity.
  assert (H4 : in_range 10 = true) by reflexivity.
  exact (proj1 (later_flag_counts "haplogroup_visualization.py" "3" "10" 3 10 H1 H2 H3 H4)).
Defined.

End CliMore.

(** ** The groups of 500 years *)


(** ** The index of the tables *)

Lemma filter_keeps_distinct (K R : Type) (key : R -> K) (keep : R -> bool) :
  forall rows, NoDup (map key rows) -> NoDup (map key (filter keep rows)).
Proof.
  induction rows as [|a rest IH]; intros H; [constructor|].
  cbn [map] in H. inversion H as [|? ? Hnot Hrest]; subst. cbn [filter].
  destruct (keep a); [|now apply IH].
  cbn [map]. constructor; [|now apply IH].
  intros Hin. apply Hnot. apply in_map_iff in Hin as (x & <- & Hx).
  apply filter_In in Hx as [Hx _]. now apply in_map.
Qed.

Lemma annotations_idx (sheet : list raw_row) :
  NoDup (map raw_idx sheet) -> NoDup (map idx (annotations sheet)).
Proof.
  unfold annotations.
  induction sheet as [|raw rest IH]; intros H; [constructor|].
  cbn [map] in H. inversion H as [|? ? Hnot Hrest]; subst. cbn [filter_map].
  destruct (clean_row raw) as [r|] eqn:E; [|now apply IH].
  cbn [map]. constructor; [|now apply IH].
  intros Hin. apply Hnot. apply in_map_iff in Hin as (x & Hx & Hin).
  apply In_filter_map in Hin as (raw' & Hraw' & Hc).
  apply clean_row_Some in E as (_ & Hi & _).
  apply clean_row_Some in Hc as (_ & Hi' & _).
  apply in_map_iff. exists raw'. split; [congruence | exact Hraw'].
Qed.

(** X20: the filters keep the index of the sheet: with a sheet index
    without repeats no two rows of a lineage table carry the same label,
    each label is the label of a sheet row, and a table has at most as many
    rows as the sheet. *)
Theorem lineage_table_index (l : lineage) (sheet : list raw_row)
    (Hidx : NoDup (map raw_idx sheet)) :
  NoDup (map l_idx (lineage_table l sheet)) /\
  (forall x, In x (lineage_table l sheet) -> In (l_idx x) (map raw_idx sheet)) /\
  length (lineage_table l sheet) <= length sheet.
Proof.
  split; [|split].
  - unfold lineage_table. rewrite map_map. cbn [l_idx view].
    apply filter_keeps_distinct. now apply annotations_idx.
  - intros x Hx. apply In_lineage_table in Hx as (raw & r & Hraw & Hc & _ & ->).
    apply clean_row_Some in Hc as (_ & Hi & _). cbn [l_idx view].
    rewrite Hi. now apply in_map.
  - unfold lineage_table. rewrite length_map.
    etransitivity; [apply List.filter_length_le|].
    unfold annotations. clear Hidx.
    induction sheet as [|raw rest IH]; [simpl; lia|].
    cbn [filter_map length]. destruct (clean_row raw); simpl; lia.
Qed.

Lemma lineage_table_index_witness :
  NoDup (map l_idx (lineage_table Y five_sites)).
Proof.
  assert (Hidx : NoDup (map raw_idx five_sites)).
  { vm_compute. repeat constructor; simpl; intuition discriminate. }
  exact (proj1 (lineage_table_index Y five_sites Hidx)).
Defined.
